(** * Booking widget: availability and lifecycle rules

    A shallow embedding of [src/app/page.tsx].  The component keeps all of
    its data in React state; the embedding threads that state explicitly
    through the handlers.  Time values are JavaScript time values
    (milliseconds since the epoch) carried as [Z]; what the component takes
    from the JavaScript host (the [Date] object and [Intl]) is collected in
    the class [JsHost], and one concrete host (UTC) is given so that every
    definition below can be run. *)

From Stdlib Require Import ZArith QArith List String Ascii Bool Lia DecimalString.
Import ListNotations.

Local Open Scope string_scope.
Local Open Scope Z_scope.

(** ** JavaScript values used by the component *)

Module Js.

(** [String(n)] for an integral number. *)
Definition String_of_number (n : Z) : string :=
  NilZero.string_of_int (Z.to_int n).

Fixpoint repeat_char (c : ascii) (n : nat) : string :=
  match n with
  | O => EmptyString
  | S k => String c (repeat_char c k)
  end.

(** [s.padStart(targetLength, c)] with a one-character pad string. *)
Definition padStart (s : string) (targetLength : nat) (c : ascii) : string :=
  repeat_char c (targetLength - String.length s) ++ s.

(** What the component asks of the host.  A [Date] is its time value;
    [None] stands for the time value [NaN] of an invalid date. *)
Class JsHost : Type := {
  (** [new Date(s).getTime()] *)
  Date_parse : string -> option Z;
  (** [new Date(year, monthIndex, day)] *)
  Date_ymd : Z -> Z -> Z -> Z;
  (** [d.getFullYear()], [d.getMonth()], [d.getDate()] in local time *)
  getFullYear : Z -> Z;
  getMonth : Z -> Z;
  getDate : Z -> Z;
  (** the time value after [d.setHours(0,0,0,0)] *)
  setHours0 : Z -> Z;
  (** [d.toISOString().split('T')[0]] *)
  toISODate : Z -> string;
  (** [new Intl.DateTimeFormat('en-US', {weekday:'short', year:'numeric',
      month:'short', day:'numeric'}).format(d)] *)
  Intl_format : Z -> string
}.

End Js.
Export Js.

(** ** A concrete host: the proleptic Gregorian calendar in UTC *)

Module UtcHost.

Definition msPerDay : Z := 86400000.

Definition days_from_civil (y m d : Z) : Z :=
  let y' := if m <=? 2 then y - 1 else y in
  let era := y' / 400 in
  let yoe := y' - era * 400 in
  let doy := (153 * (if 2 <? m then m - 3 else m + 9) + 2) / 5 + d - 1 in
  let doe := yoe * 365 + yoe / 4 - yoe / 100 + doy in
  era * 146097 + doe - 719468.

(** year, month (1..12), day of month *)
Definition civil_from_days (z : Z) : Z * Z * Z :=
  let z' := z + 719468 in
  let era := z' / 146097 in
  let doe := z' - era * 146097 in
  let yoe := (doe - doe / 1460 + doe / 36524 - doe / 146096) / 365 in
  let doy := doe - (365 * yoe + yoe / 4 - yoe / 100) in
  let mp := (5 * doy + 2) / 153 in
  let d := doy - (153 * mp + 2) / 5 + 1 in
  let m := if mp <? 10 then mp + 3 else mp - 9 in
  ((if m <=? 2 then yoe + era * 400 + 1 else yoe + era * 400), m, d).

Definition civil (t : Z) : Z * Z * Z := civil_from_days (t / msPerDay).

Definition digit_of (c : ascii) : option Z :=
  let n := Z.of_nat (nat_of_ascii c) in
  if (48 <=? n) && (n <=? 57) then Some (n - 48) else None.

Fixpoint digits_from (acc : Z) (s : string) : option Z :=
  match s with
  | EmptyString => Some acc
  | String c rest =>
      match digit_of c with
      | Some d => digits_from (10 * acc + d) rest
      | None => None
      end
  end.

Definition number_of (s : string) : option Z :=
  match s with
  | EmptyString => None
  | _ => digits_from 0 s
  end.

Definition is_char (s : string) (c : ascii) : bool :=
  match s with
  | String c' EmptyString => Ascii.eqb c c'
  | _ => false
  end.

(** The date-time form [YYYY-MM-DDTHH:mm]; anything else is an invalid date. *)
Definition parse (s : string) : option Z :=
  if negb (Nat.eqb (String.length s) 16) then None else
  if negb (is_char (substring 4 1 s) "-" && is_char (substring 7 1 s) "-"
           && is_char (substring 10 1 s) "T" && is_char (substring 13 1 s) ":")
  then None else
  match number_of (substring 0 4 s), number_of (substring 5 2 s),
        number_of (substring 8 2 s), number_of (substring 11 2 s),
        number_of (substring 14 2 s) with
  | Some y, Some m, Some d, Some hh, Some mm =>
      let days := days_from_civil y m d in
      if (1 <=? m) && (m <=? 12) && (1 <=? d) && (hh <=? 23) && (mm <=? 59)
         && (let '(y2, m2, d2) := civil_from_days days in
             (y2 =? y) && (m2 =? m) && (d2 =? d))
      then Some (days * msPerDay + hh * 3600000 + mm * 60000)
      else None
  | _, _, _, _, _ => None
  end.

Definition ymd (y m d : Z) : Z :=
  (days_from_civil (y + m / 12) (m mod 12 + 1) 1 + (d - 1)) * msPerDay.

Definition weekdays : list string :=
  ["Thu"; "Fri"; "Sat"; "Sun"; "Mon"; "Tue"; "Wed"].

Definition months : list string :=
  ["Jan"; "Feb"; "Mar"; "Apr"; "May"; "Jun";
   "Jul"; "Aug"; "Sep"; "Oct"; "Nov"; "Dec"].

Definition isoDate (t : Z) : string :=
  let '(y, m, d) := civil t in
  String_of_number y ++ "-" ++ padStart (String_of_number m) 2 "0" ++ "-"
  ++ padStart (String_of_number d) 2 "0".

Definition format (t : Z) : string :=
  let '(y, m, d) := civil t in
  nth (Z.to_nat ((t / msPerDay) mod 7)) weekdays "" ++ ", "
  ++ nth (Z.to_nat (m - 1)) months "" ++ " " ++ String_of_number d ++ ", "
  ++ String_of_number y.

#[export] Instance utcHost : JsHost := {|
  Date_parse := parse;
  Date_ymd := ymd;
  getFullYear := fun t => fst (fst (civil t));
  getMonth := fun t => snd (fst (civil t)) - 1;
  getDate := fun t => snd (civil t);
  setHours0 := fun t => (t / msPerDay) * msPerDay;
  toISODate := isoDate;
  Intl_format := format
|}.

End UtcHost.

(** ** Mock data and configuration *)

Definition OPENING_HOUR : Z := 10.
Definition CLOSING_HOUR : Z := 22.
Definition TOTAL_SLOTS_PER_DAY : Z := CLOSING_HOUR - OPENING_HOUR.
Definition MAX_CAPACITY_PER_SLOT : Z := 1.
Definition TICKET_PRICE : Z := 50000.
Definition MAX_SEATS_PER_SESSION : Z := 40.

(** The body of the [for] loop of [generateTimeSlots], run [n] times from
    counter [i] on the array [slots]. *)
Fixpoint generateTimeSlots_loop (n : nat) (i : Z) (slots : list string)
  : list string :=
  match n with
  | O => slots
  | S k => generateTimeSlots_loop k (i + 1)
             (slots ++ [String_of_number i ++ ":00"])
  end.

Definition generateTimeSlots : list string :=
  generateTimeSlots_loop (Z.to_nat (CLOSING_HOUR - OPENING_HOUR)) OPENING_HOUR [].

Definition TIME_SLOTS : list string := generateTimeSlots.

Record Booking : Type := {
  id : string;
  date : string;
  time : string;
  createdAt : string;
  status : string;
  price : option Z;
  amount : option Z
}.

Inductive NotificationType : Type := success | error | info.

Record Notification : Type := {
  type : NotificationType;
  message : string
}.

Definition getLocalDateString `{JsHost} (d : Z) : string :=
  let year := getFullYear d in
  let month := padStart (String_of_number (getMonth d + 1)) 2 "0" in
  let day := padStart (String_of_number (getDate d)) 2 "0" in
  String_of_number year ++ "-" ++ month ++ "-" ++ day.

(** ** Component state *)

Inductive View : Type := calendar | slots | payment | dashboard.

(** [succeeded] is the status ['success'], a name [NotificationType] has
    taken. *)
Inductive PaymentStatus : Type := idle | processing | succeeded | failed.

(** The [useState] cells of [BookingApp]. *)
Record State : Type := {
  currentMonth : Z;
  selectedDate : option Z;
  view : View;
  pendingBooking : option Booking;
  showXenditModal : bool;
  paymentStatus : PaymentStatus;
  bookings : list Booking;
  notification : option Notification
}.

Definition setSelectedDate (d : Z) (s : State) : State :=
  {| currentMonth := currentMonth s; selectedDate := Some d; view := view s;
     pendingBooking := pendingBooking s; showXenditModal := showXenditModal s;
     paymentStatus := paymentStatus s; bookings := bookings s;
     notification := notification s |}.

Definition setView (v : View) (s : State) : State :=
  {| currentMonth := currentMonth s; selectedDate := selectedDate s; view := v;
     pendingBooking := pendingBooking s; showXenditModal := showXenditModal s;
     paymentStatus := paymentStatus s; bookings := bookings s;
     notification := notification s |}.

Definition setPendingBooking (p : option Booking) (s : State) : State :=
  {| currentMonth := currentMonth s; selectedDate := selectedDate s;
     view := view s; pendingBooking := p;
     showXenditModal := showXenditModal s; paymentStatus := paymentStatus s;
     bookings := bookings s; notification := notification s |}.

Definition setShowXenditModal (b : bool) (s : State) : State :=
  {| currentMonth := currentMonth s; selectedDate := selectedDate s;
     view := view s; pendingBooking := pendingBooking s; showXenditModal := b;
     paymentStatus := paymentStatus s; bookings := bookings s;
     notification := notification s |}.

Definition setPaymentStatus (p : PaymentStatus) (s : State) : State :=
  {| currentMonth := currentMonth s; selectedDate := selectedDate s;
     view := view s; pendingBooking := pendingBooking s;
     showXenditModal := showXenditModal s; paymentStatus := p;
     bookings := bookings s; notification := notification s |}.

Definition setBookings (bs : list Booking) (s : State) : State :=
  {| currentMonth := currentMonth s; selectedDate := selectedDate s;
     view := view s; pendingBooking := pendingBooking s;
     showXenditModal := showXenditModal s; paymentStatus := paymentStatus s;
     bookings := bs; notification := notification s |}.

Definition setNotification (n : option Notification) (s : State) : State :=
  {| currentMonth := currentMonth s; selectedDate := selectedDate s;
     view := view s; pendingBooking := pendingBooking s;
     showXenditModal := showXenditModal s; paymentStatus := paymentStatus s;
     bookings := bookings s; notification := n |}.

Definition setCurrentMonth (m : Z) (s : State) : State :=
  {| currentMonth := m; selectedDate := selectedDate s;
     view := view s; pendingBooking := pendingBooking s;
     showXenditModal := showXenditModal s; paymentStatus := paymentStatus s;
     bookings := bookings s; notification := notification s |}.

(** [a > b] on numbers that are exact rationals. *)
Definition Qgtb (a b : Q) : bool := negb (Qle_bool a b).

Section Engine.

Context `{JsHost}.

(** *** Demo bookings

    [now] is the time value of [new Date()] and [nowIso] its
    [toISOString()].  The component never reads this array. *)
Definition demoBookings (now : Z) (nowIso : string) : list Booking :=
  (map (fun i => {| id := "full-1-" ++ String_of_number (Z.of_nat i);
                    date := getLocalDateString now; time := "10:00";
                    createdAt := nowIso; status := "PAID";
                    price := Some 50000; amount := Some 50000 |})
       (seq 0 40)
   ++ map (fun i => {| id := "almostfull-1-" ++ String_of_number (Z.of_nat i);
                       date := getLocalDateString now; time := "12:00";
                       createdAt := nowIso; status := "PAID";
                       price := Some 50000; amount := Some 50000 |})
          (seq 0 39)
   ++ map (fun i => {| id := "some-1-" ++ String_of_number (Z.of_nat i);
                       date := getLocalDateString now; time := "14:00";
                       createdAt := nowIso; status := "PAID";
                       price := Some 50000; amount := Some 50000 |})
          (seq 0 10))%list.

(** *** Helpers: availability *)

Definition isDateFull (bookings : list Booking) (dateStr : string) : bool :=
  let daysBookings := filter (fun b => String.eqb (date b) dateStr) bookings in
  Z.of_nat (List.length TIME_SLOTS) * MAX_CAPACITY_PER_SLOT
    <=? Z.of_nat (List.length daysBookings).

Definition getSessionBookings (bookings : list Booking)
           (dateStr time' : string) : list Booking :=
  filter (fun b => String.eqb (date b) dateStr && String.eqb (time b) time')
         bookings.

Definition isSlotFull (bookings : list Booking) (dateStr time' : string)
  : bool :=
  MAX_SEATS_PER_SESSION
    <=? Z.of_nat (List.length (getSessionBookings bookings dateStr time')).

Definition hasUserBookedSession (bookings : list Booking)
           (dateStr time' : string) : bool :=
  0 <? Z.of_nat (List.length (getSessionBookings bookings dateStr time')).

(** [x < now] where [x] may be [NaN]: every comparison with [NaN] is false. *)
Definition time_ltb (x : option Z) (now : Z) : bool :=
  match x with
  | Some t => t <? now
  | None => false
  end.

(** [now] is the time value of the [new Date()] the function reads. *)
Definition isSlotTaken (now : Z) (bookings : list Booking)
           (dateStr time' : string) : bool :=
  if isSlotFull bookings dateStr time' then true
  else
    let slotDateTime := Date_parse (dateStr ++ "T" ++ time') in
    if time_ltb slotDateTime now then true
    else if hasUserBookedSession bookings dateStr time' then true
    else false.

(** *** Helpers: reschedule and cancel window

    [diffInHours] is a quotient of two integral numbers; it is kept as the
    exact rational.  On doubles the subtraction and the division round
    monotonically and [12] is the exact quotient of [43200000] by
    [3600000], so the comparison with [12] has the same outcome. *)
Definition checkRescheduleValidity (now : Z) (booking : Booking) : bool :=
  let bookingDateTime := Date_parse (date booking ++ "T" ++ time booking) in
  if time_ltb bookingDateTime now then false
  else
    match bookingDateTime with
    | None => false
    | Some t =>
        let diffInHours := (inject_Z (t - now) / inject_Z (1000 * 60 * 60))%Q in
        Qgtb diffInHours (inject_Z 12)
    end.

(** *** Actions *)

Definition handleDayClick (now : Z) (day : Z) (s : State) : State :=
  let date' :=
    Date_ymd (getFullYear (currentMonth s)) (getMonth (currentMonth s)) day in
  let today := setHours0 now in
  if date' <? today then s
  else setView slots (setSelectedDate date' s).

(** [rnd] is [Math.random().toString(36).substr(2, 9)] and [nowIso] is
    [new Date().toISOString()]. *)
Definition handleSlotSelection (rnd nowIso : string) (time' : string)
           (s : State) : State :=
  match selectedDate s with
  | None => s
  | Some d =>
      let dateStr := getLocalDateString d in
      setView payment
        (setPendingBooking
           (Some {| id := rnd; date := dateStr; time := time';
                    createdAt := nowIso; status := "PENDING";
                    price := Some TICKET_PRICE; amount := None |}) s)
  end.

Definition handleInitiatePayment (s : State) : State :=
  setPaymentStatus idle (setShowXenditModal true s).

(** The booking [finalizeBooking] builds from the pending one. *)
Definition paidBooking (pendingBooking : Booking) : Booking :=
  {| id := id pendingBooking; date := date pendingBooking;
     time := time pendingBooking; createdAt := createdAt pendingBooking;
     status := "PAID"; price := price pendingBooking;
     amount := price pendingBooking |}.

(** [finalizeBooking] is a closure of the render in which it was created:
    it reads [pendingBooking], [selectedDate] and [bookings] from that
    render's state [env] and applies its setters to the state [cur] that is
    current when it runs. *)
Definition finalizeBooking (env cur : State) : State :=
  match pendingBooking env, selectedDate env with
  | Some p, Some d =>
      let newBooking := paidBooking p in
      setView dashboard
        (setPendingBooking None
           (setShowXenditModal false
              (setNotification
                 (Some {| type := success;
                          message := "Payment successful! Booked for "
                                     ++ Intl_format d ++ " at " ++ time p |})
                 (setBookings (bookings env ++ [newBooking]) cur))))
  | _, _ => cur
  end.

Definition cancelDeclined : Notification :=
  {| type := error; message := "Cannot cancel less than 12 hours before." |}.

Definition rescheduleDeclined : Notification :=
  {| type := error; message := "Cannot reschedule less than 12 hours before." |}.

(** [!booking || !checkRescheduleValidity(booking)] *)
Definition notEligible (now : Z) (booking : option Booking) : bool :=
  match booking with
  | None => true
  | Some b => negb (checkRescheduleValidity now b)
  end.

Definition handleCancelBooking (now : Z) (id' : string) (s : State) : State :=
  let booking := find (fun b => String.eqb (id b) id') (bookings s) in
  if notEligible now booking then setNotification (Some cancelDeclined) s
  else
    setNotification
      (Some {| type := success; message := "Booking cancelled & refunded." |})
      (setBookings
         (filter (fun b => negb (String.eqb (id b) id')) (bookings s)) s).

Definition handleRescheduleClick (now : Z) (id' : string) (s : State)
  : State :=
  let booking := find (fun b => String.eqb (id b) id') (bookings s) in
  if notEligible now booking then setNotification (Some rescheduleDeclined) s
  else
    setView calendar
      (setNotification
         (Some {| type := info;
                  message := "Credit retained. Select a new date." |})
         (setBookings
            (filter (fun b => negb (String.eqb (id b) id')) (bookings s)) s)).

(** *** What the rendered buttons allow *)

(** [disabled] of a calendar day button in [renderCalendar]. *)
Definition dayDisabled (now : Z) (s : State) (day : Z) : bool :=
  let date' :=
    Date_ymd (getFullYear (currentMonth s)) (getMonth (currentMonth s)) day in
  let isFull := isDateFull (bookings s) (toISODate date') in
  let isPast := date' <? setHours0 now in
  isPast || isFull.

(** [taken], the [disabled] of a slot button in [renderTimeSlots].  With no
    selected date [dateStr] is [undefined]: no booking's date equals it
    and the date-time string is invalid, so nothing is taken. *)
Definition slotDisabled (now : Z) (s : State) (time' : string) : bool :=
  match selectedDate s with
  | Some d => isSlotTaken now (bookings s) (getLocalDateString d) time'
  | None => false
  end.

Definition clickDay (now : Z) (day : Z) (s : State) : State :=
  if dayDisabled now s day then s else handleDayClick now day s.

Definition clickSlot (now : Z) (rnd nowIso : string) (time' : string)
           (s : State) : State :=
  if slotDisabled now s time' then s
  else handleSlotSelection rnd nowIso time' s.

(** *** Timers and the event loop

    [handleConfirmPayment] starts a two-second timer whose callback starts
    a second one that calls [finalizeBooking]; both callbacks are closures
    of the render in which the payment method was clicked. *)

Inductive Timer : Type :=
| PaymentTimer (env : State)
| FinalizeTimer (env : State).

Definition timerEnv (t : Timer) : State :=
  match t with
  | PaymentTimer env => env
  | FinalizeTimer env => env
  end.

Record World : Type := {
  ui : State;
  timers : list Timer
}.

Definition onUi (f : State -> State) (w : World) : World :=
  {| ui := f (ui w); timers := timers w |}.

Definition handleConfirmPayment (w : World) : World :=
  {| ui := setPaymentStatus processing (ui w);
     timers := timers w ++ [PaymentTimer (ui w)] |}.

Fixpoint removeAt {A : Type} (i : nat) (l : list A) : list A :=
  match l, i with
  | [], _ => []
  | _ :: rest, O => rest
  | x :: rest, S k => x :: removeAt k rest
  end.

Definition fireTimer (i : nat) (w : World) : World :=
  match nth_error (timers w) i with
  | None => w
  | Some (PaymentTimer env) =>
      {| ui := setPaymentStatus succeeded (ui w);
         timers := removeAt i (timers w) ++ [FinalizeTimer env] |}
  | Some (FinalizeTimer env) =>
      {| ui := finalizeBooking env (ui w);
         timers := removeAt i (timers w) |}
  end.

(** What can happen to the mounted component.  Buttons that the current
    view does not show are treated as clickable all the same, except where
    a [disabled] attribute is modelled ([clickDay], [clickSlot]); this only
    adds behaviours. *)
Inductive Event : Type :=
| DayClicked (now day : Z)
| SlotClicked (now : Z) (rnd nowIso time' : string)
| PayClicked
| MethodClicked
| CancelClicked (now : Z) (id' : string)
| RescheduleClicked (now : Z) (id' : string)
| ViewClicked (v : View)
| MonthClicked (forward : bool)
| ModalClosed
| ToastExpired
| TimerFired (i : nat).

Definition step (w : World) (e : Event) : World :=
  match e with
  | DayClicked now day => onUi (clickDay now day) w
  | SlotClicked now rnd nowIso time' => onUi (clickSlot now rnd nowIso time') w
  | PayClicked => onUi handleInitiatePayment w
  | MethodClicked => handleConfirmPayment w
  | CancelClicked now id' => onUi (handleCancelBooking now id') w
  | RescheduleClicked now id' => onUi (handleRescheduleClick now id') w
  | ViewClicked v => onUi (setView v) w
  | MonthClicked forward =>
      onUi (fun s => setCurrentMonth
                       (Date_ymd (getFullYear (currentMonth s))
                                 (if forward then getMonth (currentMonth s) + 1
                                  else getMonth (currentMonth s) - 1) 1) s) w
  | ModalClosed => onUi (setShowXenditModal false) w
  | ToastExpired => onUi (setNotification None) w
  | TimerFired i => fireTimer i w
  end.

Definition run (w : World) (es : list Event) : World := fold_left step es w.

(** The state on mount.  [now] is the time value of [new Date()];
    [tomorrowIso], [todayIso], [created1] and [created2] are the strings
    the initialiser of [bookings] computes from [new Date()]. *)
Definition initialState (now : Z)
           (tomorrowIso todayIso created1 created2 : string) : State :=
  {| currentMonth := now;
     selectedDate := None;
     view := calendar;
     pendingBooking := None;
     showXenditModal := false;
     paymentStatus := idle;
     bookings :=
       [ {| id := "demo-1"; date := tomorrowIso; time := "10:00";
            createdAt := created1; status := "PAID";
            price := Some 50000; amount := Some 50000 |};
         {| id := "demo-2"; date := todayIso; time := "12:00";
            createdAt := created2; status := "PAID";
            price := Some 50000; amount := Some 50000 |} ];
     notification := None |}.

Definition initialWorld (now : Z)
           (tomorrowIso todayIso created1 created2 : string) : World :=
  {| ui := initialState now tomorrowIso todayIso created1 created2;
     timers := [] |}.

Inductive reachable : World -> Prop :=
| reachable_init now tomorrowIso todayIso created1 created2 :
    reachable (initialWorld now tomorrowIso todayIso created1 created2)
| reachable_step w e :
    reachable w -> reachable (step w e).

(** The time value of a booking's [date] and [time], as both
    [checkRescheduleValidity] and [isSlotTaken] build it. *)
Definition dateTime (b : Booking) : option Z :=
  Date_parse (date b ++ "T" ++ time b).

Definition twelveHours : Z := 12 * (1000 * 60 * 60).

(** The list both [handleCancelBooking] and [handleRescheduleClick]
    store: [bookings.filter(b => b.id !== id)]. *)
Definition withoutId (id' : string) (bs : list Booking) : list Booking :=
  filter (fun b => negb (String.eqb (id b) id')) bs.

(** *** The invariant of the booking list *)

Definition sessionsUnique (bs : list Booking) : Prop :=
  forall d t, (List.length (getSessionBookings bs d t) <= 1)%nat.

(** A pending booking is for a session nobody has booked. *)
Definition pendingFresh (s : State) : Prop :=
  forall p, pendingBooking s = Some p ->
            getSessionBookings (bookings s) (date p) (time p) = [].

Definition goodState (s : State) : Prop :=
  sessionsUnique (bookings s) /\ pendingFresh s.

Definition goodWorld (w : World) : Prop :=
  goodState (ui w) /\ Forall (fun t => goodState (timerEnv t)) (timers w).

(** A pending booking comes from [handleSlotSelection]: a date is selected,
    and the booking is marked pending at the ticket price. *)
Definition pendingSelected (s : State) : Prop :=
  forall p, pendingBooking s = Some p ->
            (exists d, selectedDate s = Some d)
            /\ status p = "PENDING" /\ price p = Some TICKET_PRICE.

Definition pendingSelectedWorld (w : World) : Prop :=
  pendingSelected (ui w)
  /\ Forall (fun t => pendingSelected (timerEnv t)) (timers w).

(** The bookings of one session that are marked paid. *)
Definition paidSessionBookings (bookings : list Booking)
           (dateStr time' : string) : list Booking :=
  filter (fun b => String.eqb (status b) "PAID")
         (getSessionBookings bookings dateStr time').

End Engine.

(** ** What the dashboard and the slot list show *)

Section Views.

Context `{JsHost}.






(** [full], the condition of the FULL label of a slot button in
    [renderTimeSlots]; as in [slotDisabled], no booking matches an undefined
    [dateStr]. *)
Definition slotFullLabel (s : State) (time' : string) : bool :=
  match selectedDate s with
  | Some d => isSlotFull (bookings s) (getLocalDateString d) time'
  | None => false
  end.

(** *** What every stored booking looks like *)

Definition paidAtTicketPrice (b : Booking) : Prop :=
  status b = "PAID" /\ price b = Some 50000 /\ amount b = Some 50000.

Definition allPaid (s : State) : Prop :=
  forall b, In b (bookings s) -> paidAtTicketPrice b.

Definition allPaidWorld (w : World) : Prop :=
  allPaid (ui w) /\ Forall (fun t => allPaid (timerEnv t)) (timers w).

(** The events that start or fire a timer. *)
Definition touchesTimers (e : Event) : bool :=
  match e with
  | MethodClicked | TimerFired _ => true
  | _ => false
  end.

End Views.

(** The integers [lo], [lo + 1], ..., [lo + n - 1]. *)
Definition Zrange (lo : Z) (n : nat) : list Z :=
  map (fun i => lo + Z.of_nat i) (seq 0 n).

(** A string has [n] characters and reads back, digit by digit, as [v]. *)
Definition readsBackAs (n : nat) (v : Z) (str : string) : bool :=
  Nat.eqb (String.length str) n
  && match UtcHost.number_of str with
     | Some v' => v' =? v
     | None => false
     end.


(** ** Sample runs on the UTC host *)

Module Scenario.

Import UtcHost.

(** 2024-01-01T10:00 *)
Definition now0 : Z := 1704103200000.

Definition iso0 : string := "2024-01-01T10:00:00.000Z".

Definition world0 : World :=
  initialWorld now0 "2024-01-02" "2024-01-01" iso0 iso0.

Definition demo1 : Booking :=
  {| id := "demo-1"; date := "2024-01-02"; time := "10:00";
     createdAt := iso0; status := "PAID";
     price := Some 50000; amount := Some 50000 |}.

Definition demo2 : Booking :=
  {| id := "demo-2"; date := "2024-01-01"; time := "12:00";
     createdAt := iso0; status := "PAID";
     price := Some 50000; amount := Some 50000 |}.

(** Pick 5 January, 14:00. *)
Definition chooseSlot : list Event :=
  [DayClicked now0 5; SlotClicked now0 "k3j9x0q1z" iso0 "14:00"].

(** Pay, and let both timers run. *)
Definition payAndWait : list Event :=
  [PayClicked; MethodClicked; TimerFired 0; TimerFired 0].

(** Pay, close the modal, cancel [demo-1], and only then let the timers
    run. *)
Definition payCancelWait : list Event :=
  [PayClicked; MethodClicked; ModalClosed; CancelClicked now0 "demo-1";
   TimerFired 0; TimerFired 0].

Definition pendingSlot : Booking :=
  {| id := "k3j9x0q1z"; date := "2024-01-05"; time := "14:00";
     createdAt := iso0; status := "PENDING";
     price := Some TICKET_PRICE; amount := None |}.

Definition chosen : State := ui (run world0 chooseSlot).

(** A state whose list is [demoBookings] and whose pending booking is for
    the session that is already full. *)
Definition pendingFull : Booking :=
  {| id := "q7w8e9r0t"; date := "2024-01-01"; time := "10:00";
     createdAt := iso0; status := "PENDING";
     price := Some TICKET_PRICE; amount := None |}.

Definition fullHouse : State :=
  {| currentMonth := now0; selectedDate := Some now0; view := payment;
     pendingBooking := Some pendingFull; showXenditModal := true;
     paymentStatus := succeeded; bookings := demoBookings now0 iso0;
     notification := None |}.

End Scenario.

Module Scenario2.

Import UtcHost.
Import Scenario.

(** The world after 5 January, 14:00 has been picked. *)
Definition chosenWorld : World := run world0 chooseSlot.

(** The world after that slot has been paid for. *)
Definition paidWorld : World := run world0 (chooseSlot ++ payAndWait).

(** 2024-01-05T12:00:00.000 as a time value. *)
Definition jan5noon : Z := 1704456000000.

End Scenario2.

(** * Properties *)

Section EngineFacts.

Context `{JsHost}.

Lemma Qgtb_diffInHours (z : Z) :
  Qgtb (inject_Z z / inject_Z (1000 * 60 * 60)) (inject_Z 12) = true
  <-> twelveHours < z.
Proof.
  unfold Qgtb, twelveHours.
  rewrite negb_true_iff, <- not_true_iff_false, Qle_bool_iff.
  unfold Qle, Qdiv, Qmult, Qinv, inject_Z; cbn.
  lia.
Qed.

Lemma checkRescheduleValidity_true_iff (now : Z) (b : Booking) :
  checkRescheduleValidity now b = true
  <-> exists t, dateTime b = Some t /\ twelveHours < t - now.
Proof.
  unfold checkRescheduleValidity, dateTime, time_ltb.
  destruct (Date_parse (date b ++ "T" ++ time b)) as [t|].
  - destruct (Z.ltb_spec t now) as [Hlt|Hge].
    + split; [discriminate|].
      intros (t' & Ht' & Hd). inversion Ht'; subst t'.
      unfold twelveHours in Hd. lia.
    + rewrite Qgtb_diffInHours. split.
      * intros Hd. exists t. split; [reflexivity|exact Hd].
      * intros (t' & Ht' & Hd). inversion Ht'; subst t'. exact Hd.
  - split; [discriminate|]. intros (t' & Ht' & _). discriminate.
Qed.

(** C1. [checkRescheduleValidity] answers true exactly when the booking's
    date and time lie strictly in the future and strictly more than twelve
    hours after [now]; it is false whenever [now] has reached the booking's
    time, false whenever the distance is at most twelve hours (exactly
    twelve included), and true whenever it is more than twelve hours. *)
Theorem checkRescheduleValidity_spec (now : Z) (b : Booking) :
  (checkRescheduleValidity now b = true
   <-> exists t, dateTime b = Some t /\ now < t /\ twelveHours < t - now)
  /\ (forall t, dateTime b = Some t -> t <= now ->
                checkRescheduleValidity now b = false)
  /\ (forall t, dateTime b = Some t -> t - now <= twelveHours ->
                checkRescheduleValidity now b = false)
  /\ (forall t, dateTime b = Some t -> twelveHours < t - now ->
                checkRescheduleValidity now b = true)
  /\ twelveHours = 43200000.
Proof.
  assert (Hpos : 0 < twelveHours) by reflexivity.
  repeat split.
  - intros Hc. apply checkRescheduleValidity_true_iff in Hc.
    destruct Hc as (t & Ht & Hd). exists t. repeat split; trivial. lia.
  - intros (t & Ht & _ & Hd). apply checkRescheduleValidity_true_iff.
    exists t. split; assumption.
  - intros t Ht Hle. apply not_true_iff_false. intros Hc.
    apply checkRescheduleValidity_true_iff in Hc.
    destruct Hc as (t' & Ht' & Hd). rewrite Ht in Ht'. inversion Ht'. lia.
  - intros t Ht Hle. apply not_true_iff_false. intros Hc.
    apply checkRescheduleValidity_true_iff in Hc.
    destruct Hc as (t' & Ht' & Hd). rewrite Ht in Ht'. inversion Ht'. lia.
  - intros t Ht Hd. apply checkRescheduleValidity_true_iff.
    exists t. split; assumption.
Qed.

(** *** Sessions *)

Lemma getSessionBookings_In (bs : list Booking) (d t : string) (b : Booking) :
  In b (getSessionBookings bs d t) <-> In b bs /\ date b = d /\ time b = t.
Proof.
  unfold getSessionBookings. rewrite filter_In, andb_true_iff.
  rewrite !String.eqb_eq. tauto.
Qed.

Lemma hasUserBookedSession_iff (bs : list Booking) (d t : string) :
  hasUserBookedSession bs d t = true
  <-> exists b, In b bs /\ date b = d /\ time b = t.
Proof.
  unfold hasUserBookedSession. rewrite Z.ltb_lt. split.
  - intros Hlen.
    destruct (getSessionBookings bs d t) as [|b l] eqn:E; [simpl in Hlen; lia|].
    exists b. apply getSessionBookings_In. rewrite E. left. reflexivity.
  - intros (b & Hb). apply getSessionBookings_In in Hb.
    destruct (getSessionBookings bs d t); [contradiction|simpl; lia].
Qed.

Lemma isSlotTaken_orb (now : Z) (bs : list Booking) (d t : string) :
  isSlotTaken now bs d t
  = isSlotFull bs d t || time_ltb (Date_parse (d ++ "T" ++ t)) now
    || hasUserBookedSession bs d t.
Proof.
  unfold isSlotTaken.
  destruct (isSlotFull bs d t); [reflexivity|].
  destruct (time_ltb _ now); [reflexivity|].
  destruct (hasUserBookedSession bs d t); reflexivity.
Qed.

Lemma time_ltb_iff (x : option Z) (now : Z) :
  time_ltb x now = true <-> exists t, x = Some t /\ t < now.
Proof.
  destruct x as [t|]; simpl.
  - rewrite Z.ltb_lt. split.
    + intros Hlt. exists t. split; [reflexivity|exact Hlt].
    + intros (t' & Ht' & Hlt). inversion Ht'; subst. exact Hlt.
  - split; [discriminate|]. intros (t' & Ht' & _). discriminate.
Qed.

(** C3. [isSlotTaken] is true exactly when the slot is full, or its date
    and time are strictly before [now], or some booking already exists for
    that very session; a slot whose start has passed is taken whatever the
    bookings are. *)
Theorem isSlotTaken_spec (now : Z) (bs : list Booking) (d t : string) :
  (isSlotTaken now bs d t = true
   <-> isSlotFull bs d t = true
       \/ (exists ts, Date_parse (d ++ "T" ++ t) = Some ts /\ ts < now)
       \/ (exists b, In b bs /\ date b = d /\ time b = t))
  /\ (forall ts, Date_parse (d ++ "T" ++ t) = Some ts -> ts < now ->
                 isSlotTaken now bs d t = true).
Proof.
  assert (Hiff : isSlotTaken now bs d t = true
                 <-> isSlotFull bs d t = true
                     \/ (exists ts, Date_parse (d ++ "T" ++ t) = Some ts
                                    /\ ts < now)
                     \/ (exists b, In b bs /\ date b = d /\ time b = t)).
  { rewrite isSlotTaken_orb, !orb_true_iff, time_ltb_iff,
      hasUserBookedSession_iff. tauto. }
  split; [exact Hiff|].
  intros ts Hts Hlt. apply Hiff. right. left.
  exists ts. split; assumption.
Qed.

Lemma slotDisabled_full (now : Z) (s : State) (sd : Z) (t : string) :
  selectedDate s = Some sd ->
  isSlotFull (bookings s) (getLocalDateString sd) t = true ->
  slotDisabled now s t = true.
Proof.
  intros Hsd Hfull. unfold slotDisabled. rewrite Hsd.
  unfold isSlotTaken. rewrite Hfull. reflexivity.
Qed.

(** C4. [isSlotFull] is true exactly when at least forty bookings carry the
    given date and time; forty paid bookings in a session are enough, and
    then the slot counts as taken and its button, being disabled, creates
    no further booking for that date and time. *)
Theorem isSlotFull_spec (bs : list Booking) (d t : string) :
  (isSlotFull bs d t = true
   <-> 40 <= Z.of_nat (List.length
               (filter (fun b => String.eqb (date b) d && String.eqb (time b) t)
                       bs)))
  /\ (40 <= Z.of_nat (List.length (paidSessionBookings bs d t)) ->
      isSlotFull bs d t = true)
  /\ (isSlotFull bs d t = true -> forall now, isSlotTaken now bs d t = true)
  /\ (isSlotFull bs d t = true ->
      forall now rnd nowIso s sd,
        bookings s = bs -> selectedDate s = Some sd ->
        getLocalDateString sd = d ->
        clickSlot now rnd nowIso t s = s).
Proof.
  assert (Hiff : isSlotFull bs d t = true
                 <-> 40 <= Z.of_nat (List.length (getSessionBookings bs d t))).
  { unfold isSlotFull, MAX_SEATS_PER_SESSION. apply Z.leb_le. }
  split; [exact Hiff|]. split; [|split].
  - intros Hpaid. apply Hiff. unfold paidSessionBookings in Hpaid.
    pose proof (filter_length_le (fun b => String.eqb (status b) "PAID")
                                 (getSessionBookings bs d t)) as Hle.
    lia.
  - intros Hfull now. unfold isSlotTaken. rewrite Hfull. reflexivity.
  - intros Hfull now rnd nowIso s sd Hbs Hsd Hd. subst bs d.
    unfold clickSlot. rewrite (slotDisabled_full now s sd t Hsd Hfull).
    reflexivity.
Qed.

(** C7. [isDateFull] is true exactly when the bookings on the date number
    at least twelve: the twelve slots of the day (10:00 to 21:00) times a
    capacity of one per slot, a constant smaller than the forty seats of a
    session. *)
Theorem isDateFull_spec (bs : list Booking) (d : string) :
  (isDateFull bs d = true
   <-> 12 <= Z.of_nat (List.length
               (filter (fun b => String.eqb (date b) d) bs)))
  /\ TIME_SLOTS = ["10:00"; "11:00"; "12:00"; "13:00"; "14:00"; "15:00";
                   "16:00"; "17:00"; "18:00"; "19:00"; "20:00"; "21:00"]
  /\ Z.of_nat (List.length TIME_SLOTS) = TOTAL_SLOTS_PER_DAY
  /\ Z.of_nat (List.length TIME_SLOTS) * MAX_CAPACITY_PER_SLOT = 12
  /\ MAX_CAPACITY_PER_SLOT = 1
  /\ MAX_SEATS_PER_SESSION = 40
  /\ MAX_CAPACITY_PER_SLOT < MAX_SEATS_PER_SESSION.
Proof.
  split.
  - unfold isDateFull. rewrite Z.leb_le.
    change (Z.of_nat (List.length TIME_SLOTS) * MAX_CAPACITY_PER_SLOT) with 12.
    reflexivity.
  - repeat split.
Qed.

(** *** Finalising a payment *)

Lemma finalizeBooking_bookings (env cur : State) (p : Booking) (d : Z) :
  pendingBooking env = Some p -> selectedDate env = Some d ->
  bookings (finalizeBooking env cur) = (bookings env ++ [paidBooking p])%list
  /\ pendingBooking (finalizeBooking env cur) = None.
Proof.
  intros Hp Hd. unfold finalizeBooking. rewrite Hp, Hd. simpl.
  split; reflexivity.
Qed.

(** C5. Given a pending booking, [finalizeBooking] builds a booking marked
    PAID whose amount is the pending booking's price and that otherwise
    equals the pending one, and sets the booking list to the list it reads
    with that booking appended: one element longer, every earlier element
    in its place and unchanged.  The status of the pending booking is not
    consulted. *)
Theorem finalizeBooking_spec (env cur : State) (p : Booking) (d : Z) :
  pendingBooking env = Some p -> selectedDate env = Some d ->
  let r := finalizeBooking env cur in
  bookings r = (bookings env ++ [paidBooking p])%list
  /\ status (paidBooking p) = "PAID"
  /\ amount (paidBooking p) = price p
  /\ price (paidBooking p) = price p
  /\ id (paidBooking p) = id p
  /\ date (paidBooking p) = date p
  /\ time (paidBooking p) = time p
  /\ List.length (bookings r) = S (List.length (bookings env))
  /\ (forall i b, nth_error (bookings env) i = Some b ->
                  nth_error (bookings r) i = Some b)
  /\ nth_error (bookings r) (List.length (bookings env)) = Some (paidBooking p).
Proof.
  intros Hp Hd r.
  destruct (finalizeBooking_bookings env cur p d Hp Hd) as [Hb _].
  subst r. rewrite Hb.
  repeat split.
  - rewrite length_app. simpl. apply Nat.add_1_r.
  - intros i b Hi. rewrite nth_error_app1; [exact Hi|].
    apply nth_error_Some. rewrite Hi. discriminate.
  - rewrite nth_error_app2 by apply Nat.le_refl.
    rewrite Nat.sub_diag. reflexivity.
Qed.

(** C9. [finalizeBooking] checks neither availability nor capacity: with a
    pending booking it appends to whatever list it reads, and when that
    booking's session is already full the session only grows.  The cap
    acts where slots are chosen: the button of a full slot is disabled. *)
Theorem finalizeBooking_no_capacity_check
        (env cur : State) (p : Booking) (d : Z) :
  pendingBooking env = Some p -> selectedDate env = Some d ->
  let r := finalizeBooking env cur in
  bookings r = (bookings env ++ [paidBooking p])%list
  /\ (isSlotFull (bookings env) (date p) (time p) = true ->
      isSlotFull (bookings r) (date p) (time p) = true
      /\ List.length (getSessionBookings (bookings r) (date p) (time p))
         = S (List.length
                (getSessionBookings (bookings env) (date p) (time p))))
  /\ (forall now rnd nowIso s sd t,
        selectedDate s = Some sd ->
        isSlotFull (bookings s) (getLocalDateString sd) t = true ->
        clickSlot now rnd nowIso t s = s).
Proof.
  intros Hp Hd r.
  destruct (finalizeBooking_bookings env cur p d Hp Hd) as [Hb _].
  subst r. rewrite Hb. split; [reflexivity|].
  assert (Hlen : List.length
                   (getSessionBookings (bookings env ++ [paidBooking p])
                                       (date p) (time p))
                 = S (List.length
                        (getSessionBookings (bookings env) (date p) (time p)))).
  { unfold getSessionBookings. rewrite filter_app, length_app. simpl.
    rewrite !String.eqb_refl. simpl. apply Nat.add_1_r. }
  split.
  - intros Hfull. split; [|exact Hlen].
    unfold isSlotFull in *. rewrite Hlen.
    apply Z.leb_le in Hfull. apply Z.leb_le. lia.
  - intros now rnd nowIso s sd t Hsd Hfull. unfold clickSlot.
    rewrite (slotDisabled_full now s sd t Hsd Hfull). reflexivity.
Qed.

(** *** Cancelling and rescheduling *)

Lemma withoutId_In (id' : string) (bs : list Booking) (b : Booking) :
  In b (withoutId id' bs) <-> In b bs /\ id b <> id'.
Proof.
  unfold withoutId. rewrite filter_In, negb_true_iff, String.eqb_neq.
  reflexivity.
Qed.

Lemma find_id_Some (id' : string) (bs : list Booking) (b : Booking) :
  find (fun b => String.eqb (id b) id') bs = Some b ->
  In b bs /\ id b = id'.
Proof.
  intros Hf. apply find_some in Hf. rewrite String.eqb_eq in Hf. exact Hf.
Qed.

Lemma find_id_None (id' : string) (bs : list Booking) :
  find (fun b => String.eqb (id b) id') bs = None
  <-> forall b, In b bs -> id b <> id'.
Proof.
  split.
  - intros Hf b Hin. apply String.eqb_neq.
    exact (find_none _ _ Hf b Hin).
  - intros Hall. destruct (find _ bs) as [b|] eqn:E; [|reflexivity].
    apply find_id_Some in E. destruct E as [Hin Hid].
    exfalso. exact (Hall b Hin Hid).
Qed.

Lemma handleCancelBooking_eligible (now : Z) (id' : string) (s : State)
      (b : Booking) :
  find (fun b => String.eqb (id b) id') (bookings s) = Some b ->
  checkRescheduleValidity now b = true ->
  handleCancelBooking now id' s
  = setNotification
      (Some {| type := success; message := "Booking cancelled & refunded." |})
      (setBookings (withoutId id' (bookings s)) s).
Proof.
  intros Hf Hc. unfold handleCancelBooking, notEligible.
  rewrite Hf, Hc. reflexivity.
Qed.

Lemma handleCancelBooking_declined (now : Z) (id' : string) (s : State) :
  notEligible now (find (fun b => String.eqb (id b) id') (bookings s)) = true ->
  handleCancelBooking now id' s = setNotification (Some cancelDeclined) s.
Proof.
  intros Hn. unfold handleCancelBooking. rewrite Hn. reflexivity.
Qed.

Lemma handleRescheduleClick_eligible (now : Z) (id' : string) (s : State)
      (b : Booking) :
  find (fun b => String.eqb (id b) id') (bookings s) = Some b ->
  checkRescheduleValidity now b = true ->
  handleRescheduleClick now id' s
  = setView calendar
      (setNotification
         (Some {| type := info;
                  message := "Credit retained. Select a new date." |})
         (setBookings (withoutId id' (bookings s)) s)).
Proof.
  intros Hf Hc. unfold handleRescheduleClick, notEligible.
  rewrite Hf, Hc. reflexivity.
Qed.

Lemma handleRescheduleClick_declined (now : Z) (id' : string) (s : State) :
  notEligible now (find (fun b => String.eqb (id b) id') (bookings s)) = true ->
  handleRescheduleClick now id' s
  = setNotification (Some rescheduleDeclined) s.
Proof.
  intros Hn. unfold handleRescheduleClick. rewrite Hn. reflexivity.
Qed.

(** C2. When [id'] names a booking, [handleCancelBooking] removes it
    exactly when [checkRescheduleValidity] holds for it: then every
    booking with that id leaves the list and the others stay; otherwise
    the list is untouched and the user is told that the cancellation was
    declined. *)
Theorem handleCancelBooking_spec (now : Z) (id' : string) (s : State)
        (b : Booking) :
  find (fun b => String.eqb (id b) id') (bookings s) = Some b ->
  let r := handleCancelBooking now id' s in
  (~ In b (bookings r) <-> checkRescheduleValidity now b = true)
  /\ (checkRescheduleValidity now b = true ->
      bookings r = withoutId id' (bookings s)
      /\ (forall b', In b' (bookings r) <-> In b' (bookings s) /\ id b' <> id')
      /\ notification r
         = Some {| type := success;
                   message := "Booking cancelled & refunded." |})
  /\ (checkRescheduleValidity now b = false ->
      r = setNotification (Some cancelDeclined) s
      /\ bookings r = bookings s
      /\ notification r
         = Some {| type := error;
                   message := "Cannot cancel less than 12 hours before." |}).
Proof.
  intros Hf r. destruct (find_id_Some _ _ _ Hf) as [Hin Hid].
  destruct (checkRescheduleValidity now b) eqn:Hc; subst r.
  - rewrite (handleCancelBooking_eligible now id' s b Hf Hc). simpl.
    split; [|split].
    + split; [reflexivity|]. intros _ Hb.
      apply withoutId_In in Hb. tauto.
    + intros _. split; [reflexivity|]. split; [|reflexivity].
      intros b'. apply withoutId_In.
    + discriminate.
  - rewrite handleCancelBooking_declined
      by (unfold notEligible; rewrite Hf, Hc; reflexivity).
    simpl. split; [|split].
    + split; [intros Hn; contradiction|discriminate].
    + discriminate.
    + intros _. repeat split.
Qed.

(** C8. When [id'] names a booking, [handleRescheduleClick] removes it
    exactly when [checkRescheduleValidity] holds for it, and then shows the
    calendar for a new selection; otherwise the list is untouched and the
    request is declined. *)
Theorem handleRescheduleClick_spec (now : Z) (id' : string) (s : State)
        (b : Booking) :
  find (fun b => String.eqb (id b) id') (bookings s) = Some b ->
  let r := handleRescheduleClick now id' s in
  (~ In b (bookings r) <-> checkRescheduleValidity now b = true)
  /\ (checkRescheduleValidity now b = true ->
      bookings r = withoutId id' (bookings s)
      /\ (forall b', In b' (bookings r) <-> In b' (bookings s) /\ id b' <> id')
      /\ view r = calendar
      /\ notification r
         = Some {| type := info;
                   message := "Credit retained. Select a new date." |})
  /\ (checkRescheduleValidity now b = false ->
      r = setNotification (Some rescheduleDeclined) s
      /\ bookings r = bookings s
      /\ view r = view s
      /\ notification r
         = Some {| type := error;
                   message := "Cannot reschedule less than 12 hours before." |}).
Proof.
  intros Hf r. destruct (find_id_Some _ _ _ Hf) as [Hin Hid].
  destruct (checkRescheduleValidity now b) eqn:Hc; subst r.
  - rewrite (handleRescheduleClick_eligible now id' s b Hf Hc). simpl.
    split; [|split].
    + split; [reflexivity|]. intros _ Hb.
      apply withoutId_In in Hb. tauto.
    + intros _. split; [reflexivity|]. split; [|split; reflexivity].
      intros b'. apply withoutId_In.
    + discriminate.
  - rewrite handleRescheduleClick_declined
      by (unfold notEligible; rewrite Hf, Hc; reflexivity).
    simpl. split; [|split].
    + split; [intros Hn; contradiction|discriminate].
    + discriminate.
    + intros _. repeat split.
Qed.

(** C10. An id that names no booking is treated like an ineligible one:
    the list stays as it is and each handler reports its own
    twelve-hour message, the very notification it gives for a booking
    that is found but not eligible; there is no separate not-found
    report. *)
Theorem unknown_id_declined (now : Z) (id' : string) (s : State) :
  (forall b, In b (bookings s) -> id b <> id') ->
  handleCancelBooking now id' s = setNotification (Some cancelDeclined) s
  /\ handleRescheduleClick now id' s
     = setNotification (Some rescheduleDeclined) s
  /\ bookings (handleCancelBooking now id' s) = bookings s
  /\ bookings (handleRescheduleClick now id' s) = bookings s
  /\ message cancelDeclined = "Cannot cancel less than 12 hours before."
  /\ message rescheduleDeclined = "Cannot reschedule less than 12 hours before."
  /\ (forall now' id'' s' b,
        find (fun b => String.eqb (id b) id'') (bookings s') = Some b ->
        checkRescheduleValidity now' b = false ->
        notification (handleCancelBooking now' id'' s')
        = notification (handleCancelBooking now id' s)
        /\ notification (handleRescheduleClick now' id'' s')
           = notification (handleRescheduleClick now id' s)).
Proof.
  intros Hnone. apply find_id_None in Hnone.
  assert (Hc : handleCancelBooking now id' s
               = setNotification (Some cancelDeclined) s).
  { apply handleCancelBooking_declined. rewrite Hnone. reflexivity. }
  assert (Hr : handleRescheduleClick now id' s
               = setNotification (Some rescheduleDeclined) s).
  { apply handleRescheduleClick_declined. rewrite Hnone. reflexivity. }
  rewrite Hc, Hr. simpl. repeat split; trivial.
  - rewrite handleCancelBooking_declined; [reflexivity|].
    unfold notEligible.
    match goal with Hf : find _ _ = Some _, Hv : _ = false |- _ =>
      rewrite Hf, Hv end.
    reflexivity.
  - rewrite handleRescheduleClick_declined; [reflexivity|].
    unfold notEligible.
    match goal with Hf : find _ _ = Some _, Hv : _ = false |- _ =>
      rewrite Hf, Hv end.
    reflexivity.
Qed.

(** *** At most one booking per session *)

Lemma goodState_ext (s s' : State) :
  bookings s' = bookings s -> pendingBooking s' = pendingBooking s ->
  goodState s -> goodState s'.
Proof.
  unfold goodState, pendingFresh. intros Hb Hp [Hu Hf].
  rewrite Hb, Hp. split; assumption.
Qed.

Lemma getSessionBookings_withoutId (id' : string) (bs : list Booking)
      (d t : string) :
  getSessionBookings (withoutId id' bs) d t
  = withoutId id' (getSessionBookings bs d t).
Proof.
  unfold getSessionBookings, withoutId.
  induction bs as [|b bs IH]; simpl; [reflexivity|].
  destruct (negb (String.eqb (id b) id')) eqn:Eid;
    destruct (String.eqb (date b) d && String.eqb (time b) t) eqn:Es;
    simpl; rewrite ?Eid, ?Es, IH; reflexivity.
Qed.

Lemma goodState_withoutId (id' : string) (s s' : State) :
  bookings s' = withoutId id' (bookings s) ->
  pendingBooking s' = pendingBooking s ->
  goodState s -> goodState s'.
Proof.
  unfold goodState, pendingFresh, sessionsUnique. intros Hb Hp [Hu Hf].
  rewrite Hb, Hp. split.
  - intros d t. rewrite getSessionBookings_withoutId.
    apply Nat.le_trans with (2 := Hu d t).
    apply filter_length_le.
  - intros p Hpp. rewrite getSessionBookings_withoutId, (Hf p Hpp).
    reflexivity.
Qed.

Lemma goodState_cancel (now : Z) (id' : string) (s : State) :
  goodState s -> goodState (handleCancelBooking now id' s).
Proof.
  intros Hg. unfold handleCancelBooking.
  destruct (notEligible now _).
  - apply (goodState_ext s); [reflexivity|reflexivity|exact Hg].
  - apply (goodState_withoutId id' s); [reflexivity|reflexivity|exact Hg].
Qed.

Lemma goodState_reschedule (now : Z) (id' : string) (s : State) :
  goodState s -> goodState (handleRescheduleClick now id' s).
Proof.
  intros Hg. unfold handleRescheduleClick.
  destruct (notEligible now _).
  - apply (goodState_ext s); [reflexivity|reflexivity|exact Hg].
  - apply (goodState_withoutId id' s); [reflexivity|reflexivity|exact Hg].
Qed.

Lemma isSlotTaken_false_fresh (now : Z) (bs : list Booking) (d t : string) :
  isSlotTaken now bs d t = false -> getSessionBookings bs d t = [].
Proof.
  rewrite isSlotTaken_orb. intros Ht.
  apply orb_false_iff in Ht. destruct Ht as [_ Hb].
  unfold hasUserBookedSession in Hb. apply Z.ltb_ge in Hb.
  destruct (getSessionBookings bs d t); [reflexivity|simpl in Hb; lia].
Qed.

Lemma goodState_clickSlot (now : Z) (rnd nowIso t : string) (s : State) :
  goodState s -> goodState (clickSlot now rnd nowIso t s).
Proof.
  intros Hg. unfold clickSlot, slotDisabled, handleSlotSelection.
  destruct (selectedDate s) as [sd|]; [|exact Hg].
  destruct (isSlotTaken now (bookings s) (getLocalDateString sd) t) eqn:Et;
    [exact Hg|].
  destruct Hg as [Hu _]. split; [exact Hu|].
  intros p Hp. simpl in Hp. inversion Hp; subst p. simpl.
  exact (isSlotTaken_false_fresh now _ _ _ Et).
Qed.

Lemma goodState_clickDay (now day : Z) (s : State) :
  goodState s -> goodState (clickDay now day s).
Proof.
  intros Hg. unfold clickDay, handleDayClick.
  destruct (dayDisabled now s day); [exact Hg|].
  destruct (_ <? _); [exact Hg|].
  apply (goodState_ext s); [reflexivity|reflexivity|exact Hg].
Qed.

Lemma goodState_finalize (env cur : State) :
  goodState env -> goodState cur -> goodState (finalizeBooking env cur).
Proof.
  intros [Hu Hf] Hcur. unfold finalizeBooking.
  destruct (pendingBooking env) as [p|] eqn:Hp; [|exact Hcur].
  destruct (selectedDate env) as [d|]; [|exact Hcur].
  split; simpl.
  - intros d' t'. unfold getSessionBookings.
    rewrite filter_app, length_app. simpl.
    destruct (String.eqb (date p) d' && String.eqb (time p) t') eqn:Es.
    + apply andb_true_iff in Es. rewrite !String.eqb_eq in Es.
      destruct Es as [<- <-].
      fold (getSessionBookings (bookings env) (date p) (time p)).
      rewrite (Hf p Hp). simpl. apply Nat.le_refl.
    + simpl. rewrite Nat.add_0_r. apply Hu.
  - intros q Hq. discriminate.
Qed.

Lemma Forall_removeAt {A : Type} (P : A -> Prop) (i : nat) (l : list A) :
  Forall P l -> Forall P (removeAt i l).
Proof.
  intros Hl. revert i. induction Hl as [|x l Hx Hl IH]; intros i.
  - destruct i; constructor.
  - destruct i; simpl; [exact Hl|]. constructor; [exact Hx|apply IH].
Qed.

Lemma goodWorld_onUi (f : State -> State) (w : World) :
  (goodState (ui w) -> goodState (f (ui w))) ->
  goodWorld w -> goodWorld (onUi f w).
Proof.
  intros Hf [Hu Ht]. split; [exact (Hf Hu)|exact Ht].
Qed.

Lemma goodWorld_fireTimer (i : nat) (w : World) :
  goodWorld w -> goodWorld (fireTimer i w).
Proof.
  intros [Hu Ht]. unfold fireTimer.
  destruct (nth_error (timers w) i) as [tm|] eqn:Hn; [|split; assumption].
  assert (Henv : goodState (timerEnv tm)).
  { rewrite Forall_forall in Ht. apply Ht.
    exact (nth_error_In _ _ Hn). }
  destruct tm as [env|env]; simpl in Henv.
  - split; simpl.
    + apply (goodState_ext (ui w)); [reflexivity|reflexivity|exact Hu].
    + apply Forall_app. split; [apply Forall_removeAt; exact Ht|].
      constructor; [exact Henv|constructor].
  - split; simpl.
    + apply goodState_finalize; assumption.
    + apply Forall_removeAt. exact Ht.
Qed.

Lemma goodWorld_step (w : World) (e : Event) :
  goodWorld w -> goodWorld (step w e).
Proof.
  intros Hw. destruct e; simpl.
  - apply goodWorld_onUi; [apply goodState_clickDay|exact Hw].
  - apply goodWorld_onUi; [apply goodState_clickSlot|exact Hw].
  - apply goodWorld_onUi; [|exact Hw].
    intros Hg. apply (goodState_ext (ui w)); [reflexivity|reflexivity|exact Hg].
  - destruct Hw as [Hu Ht]. split; simpl.
    + apply (goodState_ext (ui w)); [reflexivity|reflexivity|exact Hu].
    + apply Forall_app. split; [exact Ht|].
      constructor; [exact Hu|constructor].
  - apply goodWorld_onUi; [apply goodState_cancel|exact Hw].
  - apply goodWorld_onUi; [apply goodState_reschedule|exact Hw].
  - apply goodWorld_onUi; [|exact Hw].
    intros Hg. apply (goodState_ext (ui w)); [reflexivity|reflexivity|exact Hg].
  - apply goodWorld_onUi; [|exact Hw].
    intros Hg. apply (goodState_ext (ui w)); [reflexivity|reflexivity|exact Hg].
  - apply goodWorld_onUi; [|exact Hw].
    intros Hg. apply (goodState_ext (ui w)); [reflexivity|reflexivity|exact Hg].
  - apply goodWorld_onUi; [|exact Hw].
    intros Hg. apply (goodState_ext (ui w)); [reflexivity|reflexivity|exact Hg].
  - apply goodWorld_fireTimer. exact Hw.
Qed.

Lemma goodWorld_initial (now : Z) (tomorrowIso todayIso c1 c2 : string) :
  goodWorld (initialWorld now tomorrowIso todayIso c1 c2).
Proof.
  split; [|constructor]. split.
  - intros d t. unfold getSessionBookings.
    cbn [initialWorld initialState ui bookings filter date time].
    destruct (String.eqb "10:00" t) eqn:E10.
    + apply String.eqb_eq in E10. subst t.
      change (String.eqb "12:00" "10:00") with false.
      rewrite andb_false_r.
      destruct (String.eqb tomorrowIso d && true); simpl; lia.
    + rewrite andb_false_r.
      destruct (String.eqb todayIso d && String.eqb "12:00" t); simpl; lia.
  - intros p Hp. discriminate.
Qed.

Lemma reachable_goodWorld (w : World) : reachable w -> goodWorld w.
Proof.
  induction 1 as [now tomorrowIso todayIso c1 c2|w e _ IH].
  - apply goodWorld_initial.
  - apply goodWorld_step. exact IH.
Qed.

Lemma reachable_run (w : World) (es : list Event) :
  reachable w -> reachable (run w es).
Proof.
  revert w. induction es as [|e es IH]; intros w Hw; simpl; [exact Hw|].
  apply IH. apply reachable_step. exact Hw.
Qed.

(** *** A pending booking always has its date *)

Lemma pendingSelected_ext (s s' : State) :
  pendingBooking s' = pendingBooking s -> selectedDate s' = selectedDate s ->
  pendingSelected s -> pendingSelected s'.
Proof.
  unfold pendingSelected. intros Hp Hd Hs. rewrite Hp, Hd. exact Hs.
Qed.

Lemma pendingSelected_none (s : State) :
  pendingBooking s = None -> pendingSelected s.
Proof.
  intros Hn p Hp. rewrite Hn in Hp. discriminate.
Qed.

Lemma pendingSelected_ui_step (e : Event) (w : World) :
  pendingSelectedWorld w -> pendingSelected (ui (step w e)).
Proof.
  intros [Hu Ht].
  destruct e; simpl;
    try (apply (pendingSelected_ext (ui w)); [reflexivity|reflexivity|exact Hu]).
  - unfold clickDay, handleDayClick.
    destruct (dayDisabled now (ui w) day); [exact Hu|].
    destruct (_ <? _); [exact Hu|].
    intros p Hp. destruct (Hu p Hp) as (_ & Hst & Hpr).
    split; [eexists; reflexivity|split; assumption].
  - unfold clickSlot, handleSlotSelection.
    destruct (slotDisabled now (ui w) time'); [exact Hu|].
    destruct (selectedDate (ui w)) as [sd|] eqn:Hsd; [|exact Hu].
    intros p Hp. simpl in Hp. inversion Hp; subst p. simpl.
    split; [exists sd; exact Hsd|split; reflexivity].
  - unfold handleCancelBooking. destruct (notEligible now _);
      (apply (pendingSelected_ext (ui w)); [reflexivity|reflexivity|exact Hu]).
  - unfold handleRescheduleClick. destruct (notEligible now _);
      (apply (pendingSelected_ext (ui w)); [reflexivity|reflexivity|exact Hu]).
  - unfold fireTimer.
    destruct (nth_error (timers w) i) as [[env|env]|]; simpl.
    + apply (pendingSelected_ext (ui w)); [reflexivity|reflexivity|exact Hu].
    + unfold finalizeBooking.
      destruct (pendingBooking env); [|exact Hu].
      destruct (selectedDate env); [|exact Hu].
      apply pendingSelected_none. reflexivity.
    + exact Hu.
Qed.

Lemma pendingSelected_timers_step (e : Event) (w : World) :
  pendingSelectedWorld w ->
  Forall (fun t => pendingSelected (timerEnv t)) (timers (step w e)).
Proof.
  intros [Hu Ht]. destruct e; simpl; try exact Ht.
  - apply Forall_app. split; [exact Ht|].
    constructor; [exact Hu|constructor].
  - unfold fireTimer.
    destruct (nth_error (timers w) i) as [tm|] eqn:Hn; [|exact Ht].
    assert (Henv : pendingSelected (timerEnv tm)).
    { rewrite Forall_forall in Ht. apply Ht. exact (nth_error_In _ _ Hn). }
    destruct tm as [env|env]; simpl.
    + apply Forall_app. split; [apply Forall_removeAt; exact Ht|].
      constructor; [exact Henv|constructor].
    + apply Forall_removeAt. exact Ht.
Qed.

(** In every reachable state, and in the state every pending timer has
    captured, a pending booking comes with a selected date: the guard of
    [finalizeBooking] on [selectedDate] never fires on its own. *)
Lemma reachable_pendingSelected (w : World) :
  reachable w -> pendingSelectedWorld w.
Proof.
  induction 1 as [now tomorrowIso todayIso c1 c2|w e _ IH].
  - split; [|constructor]. apply pendingSelected_none. reflexivity.
  - split; [apply pendingSelected_ui_step|apply pendingSelected_timers_step];
      exact IH.
Qed.

(** C6. In every state the component can reach from its initial booking
    list, whatever the clicks and timers, a date and time has at most one
    booking, hence at most one marked PAID. *)
Theorem paid_booking_unique_per_session (w : World) :
  reachable w ->
  forall d t,
    (List.length (getSessionBookings (bookings (ui w)) d t) <= 1)%nat
    /\ (List.length (paidSessionBookings (bookings (ui w)) d t) <= 1)%nat.
Proof.
  intros Hr d t. apply reachable_goodWorld in Hr.
  destruct Hr as [[Hu _] _]. split; [apply Hu|].
  unfold paidSessionBookings.
  apply Nat.le_trans with (2 := Hu d t). apply filter_length_le.
Qed.

End EngineFacts.

(** * Further properties of the handlers and the event loop *)

Section MoreFacts.

Context `{JsHost}.

(** *** Availability *)

Lemma isSlotFull_booked (bs : list Booking) (d t : string) :
  isSlotFull bs d t = true -> hasUserBookedSession bs d t = true.
Proof.
  unfold isSlotFull, hasUserBookedSession, MAX_SEATS_PER_SESSION.
  rewrite Z.leb_le, Z.ltb_lt. lia.
Qed.

Lemma isSlotTaken_past_or_booked (now : Z) (bs : list Booking) (d t : string) :
  isSlotTaken now bs d t
  = time_ltb (Date_parse (d ++ "T" ++ t)) now || hasUserBookedSession bs d t.
Proof.
  rewrite isSlotTaken_orb.
  destruct (isSlotFull bs d t) eqn:Hfull; [|reflexivity].
  rewrite (isSlotFull_booked _ _ _ Hfull), !orb_true_r. reflexivity.
Qed.

(** X1. The seat cap never decides [isSlotTaken]: a slot is taken exactly
    when its time has passed or somebody has booked its session, because a
    full session is a booked one.  In particular the session of any stored
    booking is taken. *)
Theorem isSlotTaken_without_cap (now : Z) (bs : list Booking) (d t : string) :
  isSlotTaken now bs d t
  = time_ltb (Date_parse (d ++ "T" ++ t)) now || hasUserBookedSession bs d t
  /\ (forall b, In b bs -> isSlotTaken now bs (date b) (time b) = true).
Proof.
  split; [apply isSlotTaken_past_or_booked|].
  intros b Hb. rewrite isSlotTaken_past_or_booked. apply orb_true_iff. right.
  apply hasUserBookedSession_iff. exists b. repeat split. exact Hb.
Qed.

Lemma filter_length_weaken {A : Type} (f g : A -> bool) (l : list A) :
  (forall x, f x = true -> g x = true) ->
  (List.length (filter f l) <= List.length (filter g l))%nat.
Proof.
  intros Hfg. induction l as [|x l IH]; simpl; [apply Nat.le_refl|].
  destruct (f x) eqn:Hf.
  - rewrite (Hfg x Hf). simpl. apply le_n_S. exact IH.
  - destruct (g x); simpl; [apply Nat.le_trans with (1 := IH); apply Nat.le_succ_diag_r|exact IH].
Qed.

(** X2. A full session makes its whole day full: forty bookings in one slot
    are more than the twelve that [isDateFull] asks of the day. *)
Theorem isSlotFull_isDateFull (bs : list Booking) (d t : string) :
  isSlotFull bs d t = true -> isDateFull bs d = true.
Proof.
  unfold isSlotFull, isDateFull, getSessionBookings.
  rewrite !Z.leb_le.
  change (Z.of_nat (List.length TIME_SLOTS) * MAX_CAPACITY_PER_SLOT) with 12.
  unfold MAX_SEATS_PER_SESSION. intros Hfull.
  pose proof (filter_length_weaken
                (fun b => String.eqb (date b) d && String.eqb (time b) t)
                (fun b => String.eqb (date b) d) bs) as Hle.
  assert (Hw : forall x : Booking,
             String.eqb (date x) d && String.eqb (time x) t = true ->
             String.eqb (date x) d = true).
  { intros x Hx. apply andb_true_iff in Hx. tauto. }
  specialize (Hle Hw). lia.
Qed.

(** X3. A taken slot stays taken as time passes and as the booking list
    gains bookings, whatever else happens to the list. *)
Theorem isSlotTaken_monotone (now now' : Z) (bs bs' : list Booking)
        (d t : string) :
  now <= now' -> incl bs bs' ->
  isSlotTaken now bs d t = true -> isSlotTaken now' bs' d t = true.
Proof.
  intros Hnow Hincl.
  rewrite !isSlotTaken_past_or_booked.
  rewrite !orb_true_iff, !time_ltb_iff, !hasUserBookedSession_iff.
  intros [(ts & Hts & Hlt)|(b & Hb & Hd & Ht)].
  - left. exists ts. split; [exact Hts|lia].
  - right. exists b. split; [apply Hincl; exact Hb|split; assumption].
Qed.

(** *** The twelve-hour window *)

(** X4. Eligibility only ever expires: a booking that can be rescheduled or
    cancelled at some moment could be at every earlier moment, and one that
    cannot be stays that way. *)
Theorem checkRescheduleValidity_expires (now now' : Z) (b : Booking) :
  now <= now' ->
  (checkRescheduleValidity now' b = true -> checkRescheduleValidity now b = true)
  /\ (checkRescheduleValidity now b = false ->
      checkRescheduleValidity now' b = false).
Proof.
  intros Hle.
  assert (Hup : checkRescheduleValidity now' b = true ->
                checkRescheduleValidity now b = true).
  { rewrite !checkRescheduleValidity_true_iff.
    intros (t & Ht & Hd). exists t. split; [exact Ht|lia]. }
  split; [exact Hup|].
  intros Hno. destruct (checkRescheduleValidity now' b); [|reflexivity].
  rewrite Hup in Hno by reflexivity. discriminate.
Qed.

Lemma eligible_not_past (now : Z) (b : Booking) :
  checkRescheduleValidity now b = true ->
  time_ltb (Date_parse (date b ++ "T" ++ time b)) now = false.
Proof.
  intros Hc. apply checkRescheduleValidity_true_iff in Hc.
  destruct Hc as (t & Ht & Hd). unfold dateTime in Ht. rewrite Ht. simpl.
  apply Z.ltb_ge. unfold twelveHours in Hd. lia.
Qed.


(** *** Cancelling and rescheduling, continued *)

Lemma handleCancelBooking_bookings (now : Z) (id' : string) (s : State) :
  bookings (handleCancelBooking now id' s)
  = if notEligible now (find (fun b => String.eqb (id b) id') (bookings s))
    then bookings s else withoutId id' (bookings s).
Proof.
  unfold handleCancelBooking. destruct (notEligible now _); reflexivity.
Qed.

Lemma handleRescheduleClick_bookings (now : Z) (id' : string) (s : State) :
  bookings (handleRescheduleClick now id' s)
  = if notEligible now (find (fun b => String.eqb (id b) id') (bookings s))
    then bookings s else withoutId id' (bookings s).
Proof.
  unfold handleRescheduleClick. destruct (notEligible now _); reflexivity.
Qed.

(** X6. Cancelling and rescheduling do the same to the data: on every state
    and id they leave the same booking list, the same pending booking and
    the same selected date, and one is declined exactly when the other is;
    they differ only in the message and in the view that follows. *)
Theorem cancel_and_reschedule_agree (now : Z) (id' : string) (s : State) :
  bookings (handleCancelBooking now id' s)
  = bookings (handleRescheduleClick now id' s)
  /\ pendingBooking (handleCancelBooking now id' s)
     = pendingBooking (handleRescheduleClick now id' s)
  /\ selectedDate (handleCancelBooking now id' s)
     = selectedDate (handleRescheduleClick now id' s)
  /\ (notification (handleCancelBooking now id' s) = Some cancelDeclined
      <-> notification (handleRescheduleClick now id' s)
          = Some rescheduleDeclined).
Proof.
  unfold handleCancelBooking, handleRescheduleClick.
  destruct (notEligible now _); simpl; repeat split; trivial; discriminate.
Qed.

(** X7. Neither handler ever adds or alters a booking: what is left is a
    sub-list of what was there, every booking with another id is still
    there, and unless the list is untouched no booking with the given id is
    left, duplicates of the id included. *)
Theorem cancel_only_removes (now : Z) (id' : string) (s : State) :
  let r := handleCancelBooking now id' s in
  incl (bookings r) (bookings s)
  /\ (List.length (bookings r) <= List.length (bookings s))%nat
  /\ (forall b, In b (bookings s) -> id b <> id' -> In b (bookings r))
  /\ (bookings r = bookings s \/ forall b, In b (bookings r) -> id b <> id')
  /\ bookings (handleRescheduleClick now id' s) = bookings r.
Proof.
  intros r. subst r.
  rewrite handleRescheduleClick_bookings, handleCancelBooking_bookings.
  destruct (notEligible now _).
  - split; [apply incl_refl|]. split; [apply Nat.le_refl|].
    split; [intros b Hb _; exact Hb|]. split; [left|]; reflexivity.
  - split; [apply incl_filter|]. split; [apply filter_length_le|].
    split; [intros b Hb Hid; apply withoutId_In; split; assumption|].
    split; [|reflexivity].
    right. intros b Hb. apply withoutId_In in Hb. tauto.
Qed.

(** X8. Asking twice does no more than asking once: a second cancellation
    of the same id, at the same moment or later, leaves the booking list as
    the first one left it. *)
Theorem cancel_twice (now now' : Z) (id' : string) (s : State) :
  now <= now' ->
  bookings (handleCancelBooking now' id' (handleCancelBooking now id' s))
  = bookings (handleCancelBooking now id' s).
Proof.
  intros Hle. rewrite (handleCancelBooking_bookings now' id').
  rewrite (handleCancelBooking_bookings now id' s).
  destruct (find (fun b => String.eqb (id b) id') (bookings s)) as [b|] eqn:Hf;
    simpl.
  - destruct (checkRescheduleValidity now b) eqn:Hc; simpl.
    + assert (Hnone : find (fun b => String.eqb (id b) id')
                           (withoutId id' (bookings s)) = None).
      { apply find_id_None. intros b' Hb'. apply withoutId_In in Hb'. tauto. }
      rewrite Hnone. reflexivity.
    + rewrite Hf. simpl.
      assert (Hc' : checkRescheduleValidity now' b = false).
      { destruct (checkRescheduleValidity now' b) eqn:Hc'; [|reflexivity].
        apply checkRescheduleValidity_true_iff in Hc'.
        destruct Hc' as (t & Ht & Hd).
        assert (Hyes : checkRescheduleValidity now b = true).
        { apply checkRescheduleValidity_true_iff. exists t.
          split; [exact Ht|lia]. }
        rewrite Hyes in Hc. discriminate. }
      rewrite Hc'. reflexivity.
  - rewrite Hf. reflexivity.
Qed.

(** X9. Cancelling or rescheduling frees the slot: in a reachable state,
    once an eligible booking has been removed its session is open for
    selection again at that moment. *)
Theorem cancel_frees_the_slot (w : World) (now : Z) (id' : string)
        (b : Booking) :
  reachable w ->
  find (fun b => String.eqb (id b) id') (bookings (ui w)) = Some b ->
  checkRescheduleValidity now b = true ->
  isSlotTaken now (bookings (handleCancelBooking now id' (ui w)))
              (date b) (time b) = false
  /\ isSlotTaken now (bookings (handleRescheduleClick now id' (ui w)))
                 (date b) (time b) = false.
Proof.
  intros Hr Hf Hc. apply reachable_goodWorld in Hr.
  destruct Hr as [[Hu _] _].
  rewrite handleRescheduleClick_bookings, handleCancelBooking_bookings.
  unfold notEligible. rewrite Hf, Hc. simpl.
  assert (Hfree : isSlotTaken now (withoutId id' (bookings (ui w)))
                              (date b) (time b) = false).
  { rewrite isSlotTaken_past_or_booked, (eligible_not_past now b Hc). simpl.
    unfold hasUserBookedSession. rewrite getSessionBookings_withoutId.
    destruct (find_id_Some _ _ _ Hf) as [Hin Hid].
    assert (Hs : In b (getSessionBookings (bookings (ui w)) (date b) (time b))).
    { apply getSessionBookings_In. repeat split. exact Hin. }
    specialize (Hu (date b) (time b)).
    destruct (getSessionBookings (bookings (ui w)) (date b) (time b))
      as [|x [|y l]]; [contradiction| |simpl in Hu; lia].
    destruct Hs as [->|[]]. unfold withoutId. simpl.
    rewrite Hid, String.eqb_refl. reflexivity. }
  split; exact Hfree.
Qed.

(** *** The payment timers *)

Ltac run_events :=
  unfold run;
  cbn [fold_left step onUi handleConfirmPayment ui timers app];
  repeat (unfold fireTimer at 1;
          cbn [timers nth_error removeAt app ui timerEnv]).

Lemma run_app (w : World) (es es' : list Event) :
  run w (es ++ es') = run (run w es) es'.
Proof. unfold run. apply fold_left_app. Qed.

Lemma step_timers_frame (w : World) (e : Event) :
  touchesTimers e = false -> timers (step w e) = timers w.
Proof.
  destruct e; simpl; intros Ht; try reflexivity; discriminate.
Qed.

Lemma run_timers_frame (es : list Event) (w : World) :
  forallb (fun e => negb (touchesTimers e)) es = true ->
  timers (run w es) = timers w.
Proof.
  revert w. induction es as [|e es IH]; intros w Hes; [reflexivity|].
  simpl in Hes. apply andb_true_iff in Hes. destruct Hes as [He Hes].
  apply negb_true_iff in He. simpl.
  fold (run (step w e) es). rewrite (IH _ Hes). apply step_timers_frame.
  exact He.
Qed.

(** X10. Paying is one uninterrupted flow when nothing else is clicked:
    from a state with a pending booking and no timer running, the pay
    button, a payment method and the two timers end with the paid booking
    appended, the dashboard shown, the modal closed, no pending booking and
    no timer left. *)
Theorem payment_flow (w : World) (p : Booking) (d : Z) :
  timers w = [] ->
  pendingBooking (ui w) = Some p -> selectedDate (ui w) = Some d ->
  run w [PayClicked; MethodClicked; TimerFired 0; TimerFired 0]
  = {| ui := {| currentMonth := currentMonth (ui w);
                selectedDate := Some d;
                view := dashboard;
                pendingBooking := None;
                showXenditModal := false;
                paymentStatus := succeeded;
                bookings := bookings (ui w) ++ [paidBooking p];
                notification :=
                  Some {| type := success;
                          message := "Payment successful! Booked for "
                                     ++ Intl_format d ++ " at " ++ time p |} |};
       timers := [] |}.
Proof.
  destruct w as [u ts]. destruct u as [cm sel vw pend modal pay bs note].
  cbn [timers ui pendingBooking selectedDate]. intros -> -> ->.
  reflexivity.
Qed.

(** X11. Clicking the payment method twice books once: with no timer
    running before, two clicks and their four timers leave the booking list
    that one click and its two timers leave. *)
Theorem double_click_books_once (w : World) :
  timers w = [] ->
  bookings (ui (run w [MethodClicked; MethodClicked; TimerFired 0;
                       TimerFired 0; TimerFired 0; TimerFired 0]))
  = bookings (ui (run w [MethodClicked; TimerFired 0; TimerFired 0])).
Proof.
  destruct w as [u ts]. destruct u as [cm sel vw pend modal pay bs note].
  cbn [timers ui]. intros ->.
  destruct pend; [|reflexivity]. destruct sel; reflexivity.
Qed.

(** X12. The finalising callback writes the booking list of the moment the
    payment method was clicked: whatever is clicked while the payment is
    processing (cancelling, rescheduling, picking another slot), once the
    two timers have run the list is the one from the click with the paid
    booking appended, so a cancellation made in between is undone. *)
Theorem processing_clicks_are_overwritten
        (w : World) (p : Booking) (d : Z) (es : list Event) :
  timers w = [] ->
  pendingBooking (ui w) = Some p -> selectedDate (ui w) = Some d ->
  forallb (fun e => negb (touchesTimers e)) es = true ->
  bookings (ui (run w (MethodClicked :: es ++ [TimerFired 0; TimerFired 0])))
  = (bookings (ui w) ++ [paidBooking p])%list.
Proof.
  intros Ht Hp Hd Hes.
  change (MethodClicked :: es ++ [TimerFired 0; TimerFired 0])
    with ([MethodClicked] ++ es ++ [TimerFired 0; TimerFired 0])%list.
  rewrite run_app, run_app.
  set (w1 := run w [MethodClicked]).
  assert (Ht1 : timers (run w1 es) = [PaymentTimer (ui w)]).
  { rewrite (run_timers_frame es w1 Hes). subst w1. simpl. rewrite Ht.
    reflexivity. }
  destruct (run w1 es) as [u2 ts2]. cbn [timers] in Ht1. subst ts2.
  run_events. unfold finalizeBooking. rewrite Hp, Hd. reflexivity.
Qed.

(** *** What the event loop keeps *)

(** X13. In every reachable state a pending booking has a selected date
    beside it, is marked PENDING and costs the ticket price, so the guard of
    [finalizeBooking] never turns such a booking away. *)
Theorem pending_booking_well_formed (w : World) (p : Booking) :
  reachable w -> pendingBooking (ui w) = Some p ->
  (exists d, selectedDate (ui w) = Some d)
  /\ status p = "PENDING" /\ price p = Some 50000
  /\ bookings (finalizeBooking (ui w) (ui w))
     = (bookings (ui w) ++ [paidBooking p])%list.
Proof.
  intros Hr Hp. apply reachable_pendingSelected in Hr.
  destruct Hr as [Hu _]. destruct (Hu p Hp) as ((d & Hd) & Hst & Hpr).
  split; [exists d; exact Hd|]. split; [exact Hst|]. split; [exact Hpr|].
  exact (proj1 (finalizeBooking_bookings (ui w) (ui w) p d Hp Hd)).
Qed.

Lemma allPaid_ext (s s' : State) :
  bookings s' = bookings s -> allPaid s -> allPaid s'.
Proof. unfold allPaid. intros ->. trivial. Qed.

Lemma allPaid_incl (s s' : State) :
  incl (bookings s') (bookings s) -> allPaid s -> allPaid s'.
Proof. intros Hi Hs b Hb. apply Hs. apply Hi. exact Hb. Qed.

Lemma allPaid_finalize (env cur : State) :
  pendingSelected env -> allPaid env -> allPaid cur ->
  allPaid (finalizeBooking env cur).
Proof.
  intros Hsel Henv Hcur. unfold finalizeBooking.
  destruct (pendingBooking env) as [p|] eqn:Hp; [|exact Hcur].
  destruct (selectedDate env) as [d|]; [|exact Hcur].
  intros b Hb. simpl in Hb. apply in_app_or in Hb.
  destruct Hb as [Hb|[<-|[]]]; [apply Henv; exact Hb|].
  destruct (Hsel p Hp) as (_ & _ & Hpr).
  unfold paidAtTicketPrice, paidBooking. simpl.
  split; [reflexivity|]. split; exact Hpr.
Qed.

Lemma allPaidWorld_onUi (f : State -> State) (w : World) :
  incl (bookings (f (ui w))) (bookings (ui w)) ->
  allPaidWorld w -> allPaidWorld (onUi f w).
Proof.
  intros Hi [Hu Ht]. split; [|exact Ht].
  exact (allPaid_incl (ui w) (f (ui w)) Hi Hu).
Qed.

Lemma allPaidWorld_fireTimer (i : nat) (w : World) :
  pendingSelectedWorld w -> allPaidWorld w -> allPaidWorld (fireTimer i w).
Proof.
  intros [Hsu Hst] [Hu Ht]. unfold fireTimer.
  destruct (nth_error (timers w) i) as [tm|] eqn:Hn; [|split; assumption].
  pose proof (nth_error_In _ _ Hn) as Hin.
  assert (Hpe : allPaid (timerEnv tm))
    by (rewrite Forall_forall in Ht; exact (Ht tm Hin)).
  assert (Hse : pendingSelected (timerEnv tm))
    by (rewrite Forall_forall in Hst; exact (Hst tm Hin)).
  destruct tm as [env|env]; simpl in Hpe, Hse; split; simpl.
  - exact Hu.
  - apply Forall_app. split; [apply Forall_removeAt; exact Ht|].
    constructor; [exact Hpe|constructor].
  - apply allPaid_finalize; assumption.
  - apply Forall_removeAt. exact Ht.
Qed.

Lemma clickDay_bookings (now day : Z) (s : State) :
  bookings (clickDay now day s) = bookings s.
Proof.
  unfold clickDay, handleDayClick.
  destruct (dayDisabled now s day); [reflexivity|].
  destruct (_ <? _); reflexivity.
Qed.

Lemma clickSlot_bookings (now : Z) (rnd nowIso t : string) (s : State) :
  bookings (clickSlot now rnd nowIso t s) = bookings s.
Proof.
  unfold clickSlot, handleSlotSelection.
  destruct (slotDisabled now s t); [reflexivity|].
  destruct (selectedDate s); reflexivity.
Qed.

Lemma handleCancelBooking_incl (now : Z) (id' : string) (s : State) :
  incl (bookings (handleCancelBooking now id' s)) (bookings s).
Proof.
  rewrite handleCancelBooking_bookings.
  destruct (notEligible now _); [apply incl_refl|apply incl_filter].
Qed.

Lemma handleRescheduleClick_incl (now : Z) (id' : string) (s : State) :
  incl (bookings (handleRescheduleClick now id' s)) (bookings s).
Proof.
  rewrite handleRescheduleClick_bookings.
  destruct (notEligible now _); [apply incl_refl|apply incl_filter].
Qed.

Lemma allPaidWorld_step (w : World) (e : Event) :
  pendingSelectedWorld w -> allPaidWorld w -> allPaidWorld (step w e).
Proof.
  intros Hsel Hw.
  destruct e; cbn [step];
    try (apply allPaidWorld_onUi; [apply incl_refl|exact Hw]).
  - apply allPaidWorld_onUi; [|exact Hw].
    rewrite clickDay_bookings. apply incl_refl.
  - apply allPaidWorld_onUi; [|exact Hw].
    rewrite clickSlot_bookings. apply incl_refl.
  - destruct Hw as [Hu Ht]. split; simpl; [exact Hu|].
    apply Forall_app. split; [exact Ht|]. constructor; [exact Hu|constructor].
  - apply allPaidWorld_onUi; [apply handleCancelBooking_incl|exact Hw].
  - apply allPaidWorld_onUi; [apply handleRescheduleClick_incl|exact Hw].
  - apply allPaidWorld_fireTimer; assumption.
Qed.

Lemma reachable_allPaid (w : World) : reachable w -> allPaidWorld w.
Proof.
  induction 1 as [now tomorrowIso todayIso c1 c2|w e Hr IH].
  - split; [|constructor].
    intros b [<-|[<-|[]]]; repeat split.
  - apply allPaidWorld_step; [apply reachable_pendingSelected; exact Hr|exact IH].
Qed.

(** X14. Every booking the component ever stores is marked PAID and has
    both price and amount at 50000: what the dashboard prints on each row
    without looking (the PAID badge and the amount) is true of every row. *)
Theorem stored_bookings_are_paid (w : World) (b : Booking) :
  reachable w -> In b (bookings (ui w)) ->
  status b = "PAID" /\ price b = Some TICKET_PRICE /\ amount b = price b.
Proof.
  intros Hr Hb. apply reachable_allPaid in Hr. destruct Hr as [Hu _].
  destruct (Hu b Hb) as (Hs & Hp & Ha).
  split; [exact Hs|]. split; [exact Hp|]. rewrite Ha, Hp. reflexivity.
Qed.

(** X15. The seat cap is never reached: in every reachable state no session
    is full, so the FULL label of a slot button never shows and a slot is
    disabled only for being past or booked. *)
Theorem session_never_full (w : World) :
  reachable w ->
  forall d t,
    isSlotFull (bookings (ui w)) d t = false
    /\ slotFullLabel (ui w) t = false.
Proof.
  intros Hr. apply reachable_goodWorld in Hr. destruct Hr as [[Hu _] _].
  assert (Hnf : forall d t, isSlotFull (bookings (ui w)) d t = false).
  { intros d t. unfold isSlotFull, MAX_SEATS_PER_SESSION.
    apply Z.leb_gt. specialize (Hu d t). lia. }
  intros d t. split; [apply Hnf|].
  unfold slotFullLabel. destruct (selectedDate (ui w)); [apply Hnf|reflexivity].
Qed.

(** X16. Choosing a slot never touches the booking list, and a pending
    booking that is there afterwards was there before or is new: then it is
    for the selected date and the clicked time, at the ticket price, its
    session has no booking and its start is not before now. *)
Theorem clickSlot_outcome (now : Z) (rnd nowIso t : string) (s : State) :
  let r := clickSlot now rnd nowIso t s in
  bookings r = bookings s
  /\ selectedDate r = selectedDate s
  /\ forall p, pendingBooking r = Some p ->
               pendingBooking s = Some p
               \/ (exists sd, selectedDate s = Some sd
                              /\ date p = getLocalDateString sd)
                  /\ time p = t /\ id p = rnd /\ status p = "PENDING"
                  /\ price p = Some TICKET_PRICE /\ amount p = None
                  /\ getSessionBookings (bookings s) (date p) (time p) = []
                  /\ time_ltb (dateTime p) now = false
                  /\ view r = payment.
Proof.
  intros r. subst r. unfold clickSlot, slotDisabled, handleSlotSelection.
  destruct (selectedDate s) as [sd|] eqn:Hsd.
  - destruct (isSlotTaken now (bookings s) (getLocalDateString sd) t) eqn:Ht.
    + rewrite Hsd. repeat split; trivial. intros p Hp. left. exact Hp.
    + simpl. repeat split; trivial. intros p Hp. inversion Hp; subst p.
      right. simpl.
      split; [exists sd; split; reflexivity|].
      repeat split; trivial.
      * exact (isSlotTaken_false_fresh now _ _ _ Ht).
      * rewrite isSlotTaken_past_or_booked in Ht.
        apply orb_false_iff in Ht. exact (proj1 Ht).
  - rewrite Hsd. repeat split; trivial. intros p Hp. left. exact Hp.
Qed.

(** X17. Clicking a day never touches the booking list or the pending
    booking; either nothing changes at all, or the slot view opens on the
    clicked day of the displayed month, which then is not before today's
    midnight and is not a full day. *)
Theorem clickDay_outcome (now day : Z) (s : State) :
  let r := clickDay now day s in
  let date' := Date_ymd (getFullYear (currentMonth s))
                        (getMonth (currentMonth s)) day in
  bookings r = bookings s
  /\ pendingBooking r = pendingBooking s
  /\ (r = s
      \/ selectedDate r = Some date' /\ view r = slots
         /\ setHours0 now <= date'
         /\ isDateFull (bookings s) (toISODate date') = false).
Proof.
  intros r date'. subst r. unfold clickDay, handleDayClick, dayDisabled.
  fold date'.
  destruct (date' <? setHours0 now) eqn:Hpast; simpl.
  - repeat split; trivial. left. reflexivity.
  - destruct (isDateFull (bookings s) (toISODate date')) eqn:Hfull.
    + repeat split; trivial. left. reflexivity.
    + simpl. repeat split; trivial. right.
      apply Z.ltb_ge in Hpast. repeat split; trivial.
Qed.

(** X18. The booking list grows in one way only: every event other than a
    finalising timer leaves a list whose bookings were all there before. *)
Theorem only_finalize_adds (w : World) (e : Event) :
  incl (bookings (ui (step w e))) (bookings (ui w))
  \/ exists i env,
       e = TimerFired i
       /\ nth_error (timers w) i = Some (FinalizeTimer env)
       /\ ui (step w e) = finalizeBooking env (ui w).
Proof.
  destruct e; cbn [step onUi ui handleConfirmPayment bookings setView
                   setShowXenditModal setNotification setCurrentMonth
                   setPaymentStatus handleInitiatePayment];
    try (left; apply incl_refl).
  - left. rewrite clickDay_bookings. apply incl_refl.
  - left. rewrite clickSlot_bookings. apply incl_refl.
  - left. apply handleCancelBooking_incl.
  - left. apply handleRescheduleClick_incl.
  - unfold fireTimer.
    destruct (nth_error (timers w) i) as [[env|env]|] eqn:Hn; cbn [ui].
    + left. apply incl_refl.
    + right. exists i, env. split; [reflexivity|].
      split; [exact Hn|reflexivity].
    + left. apply incl_refl.
Qed.

(** *** Date strings *)

Lemma Zrange_In (lo : Z) (n : nat) (x : Z) :
  lo <= x < lo + Z.of_nat n -> In x (Zrange lo n).
Proof.
  intros Hx. unfold Zrange. apply in_map_iff.
  exists (Z.to_nat (x - lo)). split; [lia|]. apply in_seq. lia.
Qed.

Lemma readsBackAs_spec (n : nat) (v : Z) (str : string) :
  readsBackAs n v str = true ->
  String.length str = n /\ UtcHost.number_of str = Some v.
Proof.
  unfold readsBackAs. intros Hr. apply andb_true_iff in Hr.
  destruct Hr as [Hl Hv]. apply Nat.eqb_eq in Hl. split; [exact Hl|].
  destruct (UtcHost.number_of str) as [v'|]; [|discriminate].
  apply Z.eqb_eq in Hv. subst v'. reflexivity.
Qed.

Lemma year_reads_back (y : Z) :
  1000 <= y <= 9999 -> readsBackAs 4 y (String_of_number y) = true.
Proof.
  intros Hy.
  assert (Hall : forallb (fun y => readsBackAs 4 y (String_of_number y))
                         (Zrange 1000 (Z.to_nat 9000)) = true) by (vm_compute; reflexivity).
  rewrite forallb_forall in Hall. apply Hall. apply Zrange_In. lia.
Qed.

Lemma two_digits_read_back (v : Z) :
  1 <= v <= 31 -> readsBackAs 2 v (padStart (String_of_number v) 2 "0") = true.
Proof.
  intros Hv.
  assert (Hall : forallb
                   (fun v => readsBackAs 2 v (padStart (String_of_number v) 2 "0"))
                   (Zrange 1 31) = true) by (vm_compute; reflexivity).
  rewrite forallb_forall in Hall. apply Hall. apply Zrange_In. lia.
Qed.

Lemma string_of_length_4 (str : string) :
  String.length str = 4%nat ->
  exists a b c e, str = String a (String b (String c (String e ""))).
Proof.
  destruct str as [|a [|b [|c [|e [|x r]]]]]; try discriminate.
  intros _. exists a, b, c, e. reflexivity.
Qed.

Lemma string_of_length_2 (str : string) :
  String.length str = 2%nat -> exists a b, str = String a (String b "").
Proof.
  destruct str as [|a [|b [|x r]]]; try discriminate.
  intros _. exists a, b. reflexivity.
Qed.

Lemma getLocalDateString_parts (d : Z) :
  1000 <= getFullYear d <= 9999 -> 0 <= getMonth d <= 11 ->
  1 <= getDate d <= 31 ->
  String.length (getLocalDateString d) = 10%nat
  /\ String.get 4 (getLocalDateString d) = Some "-"%char
  /\ String.get 7 (getLocalDateString d) = Some "-"%char
  /\ UtcHost.number_of (substring 0 4 (getLocalDateString d))
     = Some (getFullYear d)
  /\ UtcHost.number_of (substring 5 2 (getLocalDateString d))
     = Some (getMonth d + 1)
  /\ UtcHost.number_of (substring 8 2 (getLocalDateString d))
     = Some (getDate d).
Proof.
  intros Hy Hm Hd. unfold getLocalDateString.
  destruct (readsBackAs_spec _ _ _ (year_reads_back _ Hy)) as [Ly Ny].
  assert (Hm' : 1 <= getMonth d + 1 <= 31) by lia.
  destruct (readsBackAs_spec _ _ _ (two_digits_read_back _ Hm')) as [Lm Nm].
  destruct (readsBackAs_spec _ _ _ (two_digits_read_back _ Hd)) as [Ld Nd].
  destruct (string_of_length_4 _ Ly) as (y1 & y2 & y3 & y4 & Ey).
  destruct (string_of_length_2 _ Lm) as (m1 & m2 & Em).
  destruct (string_of_length_2 _ Ld) as (d1 & d2 & Ed).
  rewrite Ey, Em, Ed in *. cbn [append substring String.length String.get].
  repeat split; assumption || reflexivity.
Qed.

(** X19. For a date with a four-digit year, [getLocalDateString] gives ten
    characters, year, month and day in decimal with hyphens at positions 4
    and 7, month and day padded to two digits; read back, the three fields
    are the year, the month counted from one, and the day. *)
Theorem getLocalDateString_reads_back (d : Z) :
  1000 <= getFullYear d <= 9999 -> 0 <= getMonth d <= 11 ->
  1 <= getDate d <= 31 ->
  String.length (getLocalDateString d) = 10%nat
  /\ String.get 4 (getLocalDateString d) = Some "-"%char
  /\ String.get 7 (getLocalDateString d) = Some "-"%char
  /\ UtcHost.number_of (substring 0 4 (getLocalDateString d))
     = Some (getFullYear d)
  /\ UtcHost.number_of (substring 5 2 (getLocalDateString d))
     = Some (getMonth d + 1)
  /\ UtcHost.number_of (substring 8 2 (getLocalDateString d))
     = Some (getDate d).
Proof. apply getLocalDateString_parts. Qed.

(** X20. Date strings identify calendar days: two dates with four-digit
    years have the same [getLocalDateString] only if they agree in year,
    month and day, so bookings of different days never share a session
    key. *)
Theorem getLocalDateString_injective (d d' : Z) :
  1000 <= getFullYear d <= 9999 -> 0 <= getMonth d <= 11 ->
  1 <= getDate d <= 31 ->
  1000 <= getFullYear d' <= 9999 -> 0 <= getMonth d' <= 11 ->
  1 <= getDate d' <= 31 ->
  getLocalDateString d = getLocalDateString d' ->
  getFullYear d = getFullYear d' /\ getMonth d = getMonth d'
  /\ getDate d = getDate d'.
Proof.
  intros Hy Hm Hd Hy' Hm' Hd' Heq.
  destruct (getLocalDateString_parts d Hy Hm Hd) as (_ & _ & _ & Y & M & D).
  destruct (getLocalDateString_parts d' Hy' Hm' Hd')
    as (_ & _ & _ & Y' & M' & D').
  rewrite Heq in Y, M, D. rewrite Y in Y'. rewrite M in M'. rewrite D in D'.
  inversion Y'. inversion M'. inversion D'. repeat split; lia.
Qed.

End MoreFacts.


(** * The properties at work on the sample runs *)

Import Scenario.
#[local] Existing Instance UtcHost.utcHost.

(** [demo-2] starts two hours after [now0]: exactly twelve hours ahead it
    cannot be rescheduled, one millisecond earlier it can, and once it has
    started it cannot. *)
Example checkRescheduleValidity_at_the_cutoff :
  checkRescheduleValidity (now0 - 10 * 3600000) demo2 = false
  /\ checkRescheduleValidity (now0 - 10 * 3600000 - 1) demo2 = true
  /\ checkRescheduleValidity (now0 + 2 * 3600000) demo2 = false
  /\ checkRescheduleValidity (now0 + 3 * 3600000) demo2 = false.
Proof. vm_compute. repeat split. Qed.

Example isSlotTaken_samples :
  isSlotTaken now0 (bookings (ui world0)) "2024-01-05" "14:00" = false
  /\ isSlotTaken now0 (bookings (ui world0)) "2024-01-02" "10:00" = true
  /\ isSlotTaken (now0 + 1) [] "2024-01-01" "10:00" = true
  /\ isSlotTaken now0 [] "2024-01-01" "10:00" = false.
Proof. vm_compute. repeat split. Qed.

(** In [demoBookings] the 10:00 session holds forty bookings and is full,
    the 12:00 session holds thirty-nine and is not, and the day, with
    eighty-nine bookings, is full. *)
Example demoBookings_fullness :
  isSlotFull (demoBookings now0 iso0) "2024-01-01" "10:00" = true
  /\ isSlotFull (demoBookings now0 iso0) "2024-01-01" "12:00" = false
  /\ isDateFull (demoBookings now0 iso0) "2024-01-01" = true
  /\ isDateFull (bookings (ui world0)) "2024-01-01" = false.
Proof. vm_compute. repeat split. Qed.

Lemma finalizeBooking_spec_witness :
  pendingBooking chosen = Some pendingSlot
  /\ bookings (finalizeBooking chosen chosen)
     = [demo1; demo2; paidBooking pendingSlot]
  /\ List.length (bookings (finalizeBooking chosen chosen)) = 3%nat.
Proof.
  pose proof (finalizeBooking_spec chosen chosen pendingSlot 1704412800000
                                   eq_refl eq_refl) as W.
  cbv zeta in W. destruct W as (Hb & _ & _ & _ & _ & _ & _ & Hl & _).
  split; [reflexivity|]. split; [exact Hb|exact Hl].
Defined.

Lemma finalizeBooking_no_capacity_check_witness :
  isSlotFull (bookings fullHouse) "2024-01-01" "10:00" = true
  /\ List.length (getSessionBookings
                    (bookings (finalizeBooking fullHouse fullHouse))
                    "2024-01-01" "10:00") = 41%nat.
Proof.
  pose proof (finalizeBooking_no_capacity_check fullHouse fullHouse pendingFull
                now0 eq_refl eq_refl) as W.
  cbv zeta in W. destruct W as (_ & Hfull & _).
  split; [reflexivity|].
  destruct (Hfull eq_refl) as [_ Hlen]. exact Hlen.
Defined.

Lemma handleCancelBooking_spec_witness :
  checkRescheduleValidity now0 demo1 = true
  /\ ~ In demo1 (bookings (handleCancelBooking now0 "demo-1" (ui world0)))
  /\ bookings (handleCancelBooking now0 "demo-1" (ui world0)) = [demo2].
Proof.
  pose proof (handleCancelBooking_spec now0 "demo-1" (ui world0) demo1 eq_refl)
    as W.
  cbv zeta in W. destruct W as (Hiff & Hyes & _).
  split; [reflexivity|]. split.
  - apply Hiff. reflexivity.
  - destruct (Hyes eq_refl) as (Hb & _). exact Hb.
Defined.

Lemma handleRescheduleClick_spec_witness :
  checkRescheduleValidity now0 demo2 = false
  /\ bookings (handleRescheduleClick now0 "demo-2" (ui world0))
     = bookings (ui world0)
  /\ notification (handleRescheduleClick now0 "demo-2" (ui world0))
     = Some rescheduleDeclined.
Proof.
  pose proof (handleRescheduleClick_spec now0 "demo-2" (ui world0) demo2 eq_refl)
    as W.
  cbv zeta in W. destruct W as (_ & _ & Hno).
  split; [reflexivity|].
  destruct (Hno eq_refl) as (_ & Hb & _ & Hn). split; [exact Hb|exact Hn].
Defined.

Lemma unknown_id_declined_witness :
  handleCancelBooking now0 "demo-3" (ui world0)
  = setNotification (Some cancelDeclined) (ui world0)
  /\ handleRescheduleClick now0 "demo-3" (ui world0)
     = setNotification (Some rescheduleDeclined) (ui world0).
Proof.
  assert (Hnone : forall b, In b (bookings (ui world0)) -> id b <> "demo-3").
  { intros b [<-|[<-|[]]]; discriminate. }
  destruct (unknown_id_declined now0 "demo-3" (ui world0) Hnone)
    as (Hc & Hr & _).
  split; [exact Hc|exact Hr].
Defined.

Lemma paid_booking_unique_per_session_witness :
  List.length (bookings (ui (run world0 (chooseSlot ++ payAndWait)))) = 3%nat
  /\ (List.length (paidSessionBookings
                     (bookings (ui (run world0 (chooseSlot ++ payAndWait))))
                     "2024-01-05" "14:00") <= 1)%nat.
Proof.
  split; [reflexivity|].
  apply (paid_booking_unique_per_session
           (run world0 (chooseSlot ++ payAndWait))).
  apply reachable_run. apply reachable_init.
Defined.

(** The callback that finalises a payment keeps the booking list of the
    render in which the payment method was clicked: a booking cancelled
    while the payment is processing is back in the list once the timers have
    run. *)
Example finalizeBooking_reads_the_list_of_its_render :
  map id (bookings (ui (run world0 (chooseSlot ++ payCancelWait))))
  = ["demo-1"; "demo-2"; "k3j9x0q1z"]
  /\ map id (bookings (ui (run world0
                             (chooseSlot ++ [PayClicked; MethodClicked;
                                             ModalClosed;
                                             CancelClicked now0 "demo-1"]))))
     = ["demo-2"].
Proof. vm_compute. split; reflexivity. Qed.

(** * The further properties at work on the sample runs *)

Import Scenario2.

Lemma isSlotFull_isDateFull_witness :
  isSlotFull (demoBookings now0 iso0) "2024-01-01" "10:00" = true
  /\ isDateFull (demoBookings now0 iso0) "2024-01-01" = true.
Proof.
  assert (Hfull : isSlotFull (demoBookings now0 iso0) "2024-01-01" "10:00"
                  = true) by (vm_compute; reflexivity).
  split; [exact Hfull|].
  exact (isSlotFull_isDateFull (demoBookings now0 iso0) "2024-01-01" "10:00"
                               Hfull).
Defined.

Lemma isSlotTaken_monotone_witness :
  isSlotTaken now0 (bookings (ui world0)) "2024-01-02" "10:00" = true
  /\ isSlotTaken (now0 + 1) (bookings (ui paidWorld)) "2024-01-02" "10:00"
     = true.
Proof.
  split; [reflexivity|].
  refine (isSlotTaken_monotone now0 (now0 + 1) (bookings (ui world0))
                               (bookings (ui paidWorld))
                               "2024-01-02" "10:00" _ _ _).
  - unfold now0. lia.
  - intros b [<-|[<-|[]]]; vm_compute; auto.
  - reflexivity.
Defined.

Lemma checkRescheduleValidity_expires_witness :
  checkRescheduleValidity (now0 + 3600000) demo1 = true
  /\ checkRescheduleValidity now0 demo1 = true.
Proof.
  split; [reflexivity|].
  refine (proj1 (checkRescheduleValidity_expires
                   now0 (now0 + 3600000) demo1 _) _).
  - unfold now0. lia.
  - reflexivity.
Defined.

Lemma cancel_twice_witness :
  bookings (handleCancelBooking (now0 + 1) "demo-1"
              (handleCancelBooking now0 "demo-1" (ui world0)))
  = [demo2].
Proof.
  rewrite (cancel_twice now0 (now0 + 1) "demo-1" (ui world0)).
  - reflexivity.
  - unfold now0. lia.
Defined.

Lemma cancel_frees_the_slot_witness :
  isSlotTaken now0 (bookings (ui world0)) "2024-01-02" "10:00" = true
  /\ isSlotTaken now0 (bookings (handleCancelBooking now0 "demo-1" (ui world0)))
                 "2024-01-02" "10:00" = false.
Proof.
  split; [reflexivity|].
  refine (proj1 (cancel_frees_the_slot world0 now0 "demo-1" demo1 _ _ _)).
  - apply reachable_init.
  - reflexivity.
  - reflexivity.
Defined.

Lemma payment_flow_witness :
  bookings (ui (run chosenWorld
                    [PayClicked; MethodClicked; TimerFired 0; TimerFired 0]))
  = [demo1; demo2; paidBooking pendingSlot].
Proof.
  rewrite (payment_flow chosenWorld pendingSlot 1704412800000
                        eq_refl eq_refl eq_refl).
  reflexivity.
Defined.

Lemma double_click_books_once_witness :
  List.length
    (bookings (ui (run chosenWorld
                       [MethodClicked; MethodClicked; TimerFired 0;
                        TimerFired 0; TimerFired 0; TimerFired 0])))
  = 3%nat.
Proof.
  rewrite (double_click_books_once chosenWorld eq_refl). reflexivity.
Defined.

Lemma processing_clicks_are_overwritten_witness :
  bookings (ui (run chosenWorld
                    [MethodClicked; ModalClosed; CancelClicked now0 "demo-1"]))
  = [demo2]
  /\ bookings (ui (run chosenWorld
                       (MethodClicked
                          :: [ModalClosed; CancelClicked now0 "demo-1"]
                          ++ [TimerFired 0; TimerFired 0])))
     = [demo1; demo2; paidBooking pendingSlot].
Proof.
  split; [reflexivity|].
  rewrite (processing_clicks_are_overwritten
             chosenWorld pendingSlot 1704412800000
             [ModalClosed; CancelClicked now0 "demo-1"]
             eq_refl eq_refl eq_refl eq_refl).
  reflexivity.
Defined.

Lemma pending_booking_well_formed_witness :
  pendingBooking (ui chosenWorld) = Some pendingSlot
  /\ bookings (finalizeBooking (ui chosenWorld) (ui chosenWorld))
     = (bookings (ui chosenWorld) ++ [paidBooking pendingSlot])%list.
Proof.
  split; [reflexivity|].
  refine (proj2 (proj2 (proj2 (pending_booking_well_formed
                                 chosenWorld pendingSlot _ _)))).
  - unfold chosenWorld. apply reachable_run. apply reachable_init.
  - reflexivity.
Defined.

Lemma stored_bookings_are_paid_witness :
  In (paidBooking pendingSlot) (bookings (ui paidWorld))
  /\ status (paidBooking pendingSlot) = "PAID"
  /\ price (paidBooking pendingSlot) = Some TICKET_PRICE.
Proof.
  assert (Hin : In (paidBooking pendingSlot) (bookings (ui paidWorld))).
  { vm_compute. auto. }
  split; [exact Hin|].
  assert (Hr : reachable paidWorld).
  { unfold paidWorld. apply reachable_run. apply reachable_init. }
  destruct (stored_bookings_are_paid paidWorld (paidBooking pendingSlot) Hr Hin)
    as (Hs & Hp & _).
  split; [exact Hs|exact Hp].
Defined.

Lemma session_never_full_witness :
  List.length (bookings (ui paidWorld)) = 3%nat
  /\ isSlotFull (bookings (ui paidWorld)) "2024-01-05" "14:00" = false.
Proof.
  split; [reflexivity|].
  refine (proj1 (session_never_full paidWorld _ "2024-01-05" "14:00")).
  unfold paidWorld. apply reachable_run. apply reachable_init.
Defined.

Lemma getLocalDateString_reads_back_witness :
  getLocalDateString now0 = "2024-01-01"
  /\ String.length (getLocalDateString now0) = 10%nat
  /\ UtcHost.number_of (substring 5 2 (getLocalDateString now0)) = Some 1.
Proof.
  split; [reflexivity|].
  destruct (getLocalDateString_reads_back now0) as (Hl & _ & _ & _ & Hm & _).
  - vm_compute. split; intros Hc; discriminate Hc.
  - vm_compute. split; intros Hc; discriminate Hc.
  - vm_compute. split; intros Hc; discriminate Hc.
  - split; [exact Hl|exact Hm].
Defined.

Lemma getLocalDateString_injective_witness :
  getLocalDateString now0 = getLocalDateString (now0 + 3600000)
  /\ getDate now0 = getDate (now0 + 3600000).
Proof.
  split; [reflexivity|].
  refine (proj2 (proj2 (getLocalDateString_injective
                          now0 (now0 + 3600000) _ _ _ _ _ _ _)));
    [vm_compute; split; intros Hc; discriminate Hc ..|reflexivity].
Defined.
